(** * Keyboard navigation between containers of focusable elements

    A shallow embedding of [src/useKeyboardNavigation.ts].  The DOM is an
    explicit read-only structure; the side effects of the handlers
    ([focus], [click], [preventDefault], the React state setter) are
    threaded through a small state-and-exception monad over a [World]
    that also keeps the ordered log of host calls.

    Host behaviour taken for granted: [focus()] always moves the focus to
    its element, [click()] is only recorded (what a click handler does is
    not part of this module), the state setter applies its updater to the
    state the handler was rendered with, and [className] is a string.
    These hold for focusable HTML elements; statements below that are
    meant for any element speak of the calls made, as logged in
    [effects], and not of the focus that results. *)

From Stdlib Require Import ZArith String Ascii List Bool Lia.
From stdpp Require Import base option list gmap strings.
Import ListNotations.

Local Open Scope string_scope.
Local Open Scope list_scope.
Local Open Scope Z_scope.

(** ** Host model *)

(** DOM nodes are opaque handles; [===] on nodes is equality of handles. *)
Definition Element : Type := nat.

(** [type ClassName = string]. *)
Definition ClassName : Type := string.

(** The part of the document the handlers read: [querySelectorAll] run on
    a node with a selector string ([None] stands for the [SyntaxError] the
    host throws on a selector it cannot parse, otherwise the matching
    descendants in document order), and the [className] of a node. *)
Record Dom : Type := {
  querySelectorAll : Element -> string -> option (list Element);
  className : Element -> string
}.

(** The fields of [KeyboardEvent] the handlers read. *)
Record KeyboardEvent : Type := {
  key : string;
  shiftKey : bool
}.

(** [type AutoSelect = boolean | { [index: number]: boolean }]. *)
Inductive AutoSelect : Type :=
| AutoSelectBool (b : bool)
| AutoSelectMap (m : gmap Z bool).

(** [AllowedSelectors | AllowedSelectors[]]. *)
Inductive Selectors : Type :=
| OneSelector (s : string)
| ManySelectors (l : list string).

(** [interface Options]; every field is optional. *)
Record Options : Type := {
  selectors : option Selectors;
  autoSelect : option AutoSelect;
  tabKeyContainerLevel : option bool;
  selectedClassName : option ClassName
}.

(** Host calls made by the handlers, in the order they are made. *)
Inductive Effect : Type :=
| Focus (e : Element)
| Click (e : Element)
| PreventDefault
| SetContainerIndex (i : Z).

(** The mutable state around one call: the focused node
    ([document.activeElement]), the React state cell behind
    [setContainerIndex], the event's [defaultPrevented] flag, and the log
    of host calls. *)
Record World : Type := {
  activeElement : option Element;
  containerIndexState : Z;
  defaultPrevented : bool;
  effects : list Effect
}.

Inductive Exn : Type := TypeError | SyntaxError.

Inductive Completion (A : Type) : Type :=
| Normal (a : A)
| Thrown (e : Exn).
Arguments Normal {A} a.
Arguments Thrown {A} e.

(** Computations that read and change the world and may throw. *)
Definition JS (A : Type) : Type := World -> Completion A * World.

Definition ret {A} (a : A) : JS A := fun w => (Normal a, w).

Definition throw {A} (e : Exn) : JS A := fun w => (Thrown e, w).

Definition bind {A B} (m : JS A) (k : A -> JS B) : JS B :=
  fun w =>
    match m w with
    | (Normal a, w') => k a w'
    | (Thrown e, w') => (Thrown e, w')
    end.

#[global] Instance JS_bind : MBind JS := fun A B k m => bind m k.

(** [element.focus()]. *)
Definition focus (e : Element) : JS unit := fun w =>
  (Normal tt,
   {| activeElement := Some e;
      containerIndexState := containerIndexState w;
      defaultPrevented := defaultPrevented w;
      effects := effects w ++ [Focus e] |}).

(** [element.click()]. *)
Definition click (e : Element) : JS unit := fun w =>
  (Normal tt,
   {| activeElement := activeElement w;
      containerIndexState := containerIndexState w;
      defaultPrevented := defaultPrevented w;
      effects := effects w ++ [Click e] |}).

(** [event.preventDefault()]. *)
Definition preventDefault (event : KeyboardEvent) : JS unit := fun w =>
  (Normal tt,
   {| activeElement := activeElement w;
      containerIndexState := containerIndexState w;
      defaultPrevented := true;
      effects := effects w ++ [PreventDefault] |}).

(** [type ContainerIndexSetter]: the setter takes an updater function. *)
Definition ContainerIndexSetter : Type := (Z -> Z) -> JS unit.

(** The setter returned by [React.useState(0)], applied to an updater. *)
Definition setContainerIndex : ContainerIndexSetter := fun updater w =>
  (Normal tt,
   {| activeElement := activeElement w;
      containerIndexState := updater (containerIndexState w);
      defaultPrevented := defaultPrevented w;
      effects := effects w ++ [SetContainerIndex (updater (containerIndexState w))] |}).

(** [document.activeElement]. *)
Definition documentActiveElement : JS (option Element) := fun w =>
  (Normal (activeElement w), w).

(** ** JavaScript library functions used by the handlers *)

(** [xs[i]] for a number [i]: [undefined] outside [0 .. length-1]. *)
Definition index {A} (xs : list A) (i : Z) : option A :=
  if i <? 0 then None else xs !! Z.to_nat i.

(** [Array.prototype.findIndex]: the first position that satisfies the
    predicate, [-1] when there is none. *)
Fixpoint findIndexFrom {A} (p : A -> bool) (xs : list A) (i : Z) : Z :=
  match xs with
  | [] => -1
  | x :: xs' => if p x then i else findIndexFrom p xs' (i + 1)
  end.

Definition findIndex {A} (p : A -> bool) (xs : list A) : Z :=
  findIndexFrom p xs 0.

(** [String.prototype.includes]: substring containment. *)
Fixpoint includes (s sub : string) : bool :=
  if String.prefix sub s then true
  else match s with
       | EmptyString => false
       | String _ s' => includes s' sub
       end.

(** [Array.prototype.includes] on an array of strings. *)
Definition arrayIncludes (xs : list string) (x : string) : bool :=
  existsb (String.eqb x) xs.

(** ** The module *)

Definition SELECTED_CLASSNAME : ClassName := "selected".

Definition allSelectors : list string :=
  [ "a"; "button"; "[href]"; "input"; "select"; "textarea";
    ("[tabindex]:not([tabindex=" ++ String "034" "-1" ++ String "034" "])")%string ].

Definition parseSelectors (unParsedSelectors : Selectors) : string :=
  match unParsedSelectors with
  | ManySelectors l => String.concat "," l
  | OneSelector s => s
  end.

Section Handlers.
Variable dom : Dom.

(** [getFocusableElements], lines 52-55.  An [undefined] selector
    argument is stringified by [querySelectorAll]. *)
Definition getFocusableElements (container : Element) (selectors : option string)
  : JS (list Element) :=
  match querySelectorAll dom container (default "undefined" selectors) with
  | Some found => ret found
  | None => throw SyntaxError
  end.

(** [checkForPreviouslyFocusedElement], lines 57-70. *)
Definition checkForPreviouslyFocusedElement
    (elements : list Element) (selectedClassName : option ClassName)
  : option Element :=
  let elemArray := elements in
  let elementToSelect :=
    find (fun element =>
            includes (className dom element)
                     (default SELECTED_CLASSNAME selectedClassName))
         elemArray in
  match elementToSelect with
  | Some e => Some e
  | None => index elements 0
  end.

(** [focusElement], lines 72-98. *)
Definition focusElement (element : option Element) (event : KeyboardEvent)
    (containerIndex : Z) (autoSelect : option AutoSelect) : JS unit :=
  match element with
  | None => ret tt
  | Some element =>
      focus element;;
      let select := false in
      let select :=
        match autoSelect with
        | Some (AutoSelectBool true) => true
        | _ => select
        end in
      let select :=
        match autoSelect with
        | Some (AutoSelectMap m) =>
            if default false (m !! containerIndex) then true else select
        | _ => select
        end in
      (if select then click element else ret tt);;
      preventDefault event
  end.

(** [moveToContainer], lines 108-140.  The early [return] after the
    second query is the second length test: it can only succeed when the
    first answer was empty and the universal query was made. *)
Definition moveToContainer (container : option Element)
    (setContainerIndex : ContainerIndexSetter) (forwardDirection : bool)
    (event : KeyboardEvent) (selectors : option string)
    (selectedClassName : option ClassName) : JS unit :=
  match container with
  | None => ret tt
  | Some container =>
      containerElements ← getFocusableElements container selectors;
      containerElements ←
        (if (length containerElements =? 0)%nat
         then getFocusableElements container
                (Some (parseSelectors (ManySelectors allSelectors)))
         else ret containerElements);
      if (length containerElements =? 0)%nat then ret tt
      else
        let elementToSelect :=
          checkForPreviouslyFocusedElement containerElements selectedClassName in
        match elementToSelect with
        | Some elementToSelect =>
            preventDefault event;;
            setContainerIndex
              (fun prev => if forwardDirection then prev + 1 else prev - 1);;
            focus elementToSelect
        | None => ret tt
        end
  end.

(** [handleSwitchContainer], lines 142-177.  An entry of [containers]
    is [None] where [parseContainer] found no node. *)
Definition handleSwitchContainer (event : KeyboardEvent)
    (containers : list (option Element)) (containerIndex : Z)
    (setContainerIndex : ContainerIndexSetter) (selectors : string)
    (selectedClassName : option ClassName) : JS unit :=
  if (String.eqb (key event) "Tab" && shiftKey event)
     || String.eqb (key event) "ArrowLeft"
  then
    let prevContainerElement :=
      if 0 <? containerIndex
      then mjoin (index containers (containerIndex - 1))
      else None in
    moveToContainer prevContainerElement setContainerIndex false event
                    (Some selectors) selectedClassName
  else if arrayIncludes ["Tab"; "ArrowRight"] (key event)
  then
    let nextContainerElement :=
      if containerIndex <? Z.of_nat (length containers) - 1
      then mjoin (index containers (containerIndex + 1))
      else None in
    moveToContainer nextContainerElement setContainerIndex true event
                    (Some selectors) selectedClassName
  else ret tt.

(** [handleUpDown], lines 179-199. *)
Definition handleUpDown (event : KeyboardEvent) (activeElement : option Element)
    (elements : list Element) (containerIndex : Z)
    (autoSelect : option AutoSelect) : JS unit :=
  let currentIndex :=
    findIndex (fun availableElement =>
                 bool_decide (Some availableElement = activeElement))
              elements in
  let nextElement := None in
  let nextElement :=
    if String.eqb (key event) "ArrowDown"
    then index elements (currentIndex + 1) else nextElement in
  let nextElement :=
    if String.eqb (key event) "ArrowUp"
    then index elements (currentIndex - 1) else nextElement in
  focusElement nextElement event containerIndex autoSelect.

(** [selectors ? selectors : allSelectors]: only the empty string is a
    falsy selector value; an array, even an empty one, is truthy. *)
Definition selectorsOrAll (selectors : option Selectors) : Selectors :=
  match selectors with
  | None => ManySelectors allSelectors
  | Some (OneSelector EmptyString) => ManySelectors allSelectors
  | Some s => s
  end.

(** [handleEvents], lines 201-252.  Calling [querySelectorAll] on a
    missing container throws a [TypeError]. *)
Definition handleEvents (event : KeyboardEvent)
    (containers : list (option Element)) (containerIndex : Z)
    (setContainerIndex : ContainerIndexSetter) (options : option Options)
  : JS unit :=
  if (length containers =? 0)%nat then ret tt
  else
    activeElement ← documentActiveElement;
    let container := mjoin (index containers containerIndex) in
    let key := key event in
    if negb (arrayIncludes
               ["ArrowUp"; "ArrowDown"; "Tab"; "ArrowLeft"; "ArrowRight"] key)
    then ret tt
    else
      let '(selectors, autoSelect, tabKeyContainerLevel, selectedClassName) :=
        match options with
        | Some o => (selectors o, autoSelect o, tabKeyContainerLevel o,
                     selectedClassName o)
        | None => (None, None, None, None)
        end in
      let parsedSelectors := parseSelectors (selectorsOrAll selectors) in
      elements ←
        match container with
        | Some container =>
            match querySelectorAll dom container parsedSelectors with
            | Some found => ret found
            | None => throw SyntaxError
            end
        | None => throw TypeError
        end;
      if (1 <? length containers)%nat
         && ((String.eqb key "Tab" && default false tabKeyContainerLevel)
             || arrayIncludes ["ArrowLeft"; "ArrowRight"] key)
      then
        handleSwitchContainer event containers containerIndex
                              setContainerIndex parsedSelectors selectedClassName
      else
        handleUpDown event activeElement elements containerIndex autoSelect.

(** The [eventHandler] callback of the hook, lines 279-290: it passes the
    rendered [containerIndex] state and the state's setter to
    [handleEvents]. *)
Definition eventHandler (containers : list (option Element))
    (options : option Options) (event : KeyboardEvent) : JS unit :=
  fun w =>
    handleEvents event containers (containerIndexState w)
                 setContainerIndex options w.

End Handlers.

(** ** Names for the conditions and intermediate values of the handlers

    The handlers above compute these inline; they are named here so that
    statements can refer to them.  Each is tied back to its handler by a
    lemma below. *)

(** The marker test that [checkForPreviouslyFocusedElement] passes to
    [find]. *)
Definition hasMarker (dom : Dom) (selectedClassName : option ClassName)
    (element : Element) : bool :=
  includes (className dom element) (default SELECTED_CLASSNAME selectedClassName).

(** The key filter of [handleEvents]. *)
Definition recognizedKey (k : string) : bool :=
  arrayIncludes ["ArrowUp"; "ArrowDown"; "Tab"; "ArrowLeft"; "ArrowRight"] k.

(** The selector string [handleEvents] resolves from the options. *)
Definition resolvedSelectors (options : option Options) : string :=
  parseSelectors (selectorsOrAll (options ≫= selectors)).

(** The universal selector string of the fallback query. *)
Definition universalSelectors : string :=
  parseSelectors (ManySelectors allSelectors).

(** The guard under which [handleEvents] hands the event to
    [handleSwitchContainer]. *)
Definition switchRoute (containers : list (option Element))
    (options : option Options) (event : KeyboardEvent) : bool :=
  (1 <? length containers)%nat
  && ((String.eqb (key event) "Tab"
       && default false (options ≫= tabKeyContainerLevel))
      || arrayIncludes ["ArrowLeft"; "ArrowRight"] (key event)).

(** The two branch conditions of [handleSwitchContainer]. *)
Definition previousInput (event : KeyboardEvent) : bool :=
  (String.eqb (key event) "Tab" && shiftKey event)
  || String.eqb (key event) "ArrowLeft".

Definition nextInput (event : KeyboardEvent) : bool :=
  negb (previousInput event) && arrayIncludes ["Tab"; "ArrowRight"] (key event).

(** The container [handleSwitchContainer] passes to [moveToContainer]. *)
Definition candidateContainer (event : KeyboardEvent)
    (containers : list (option Element)) (containerIndex : Z) : option Element :=
  if previousInput event then
    if 0 <? containerIndex
    then mjoin (index containers (containerIndex - 1)) else None
  else if nextInput event then
    if containerIndex <? Z.of_nat (length containers) - 1
    then mjoin (index containers (containerIndex + 1)) else None
  else None.

(** The element list [moveToContainer] ends up with: the answer to the
    given selector, or to the universal one when that answer is empty;
    [None] when a query throws. *)
Definition focusableOf (dom : Dom) (container : Element) (selectors : string)
  : option (list Element) :=
  match querySelectorAll dom container selectors with
  | Some [] => querySelectorAll dom container universalSelectors
  | answer => answer
  end.

(** The element [handleUpDown] passes to [focusElement]. *)
Definition neighbour (event : KeyboardEvent) (activeElement : option Element)
    (elements : list Element) : option Element :=
  let currentIndex :=
    findIndex (fun availableElement =>
                 bool_decide (Some availableElement = activeElement))
              elements in
  let nextElement := None in
  let nextElement :=
    if String.eqb (key event) "ArrowDown"
    then index elements (currentIndex + 1) else nextElement in
  let nextElement :=
    if String.eqb (key event) "ArrowUp"
    then index elements (currentIndex - 1) else nextElement in
  nextElement.

(** The [select] flag [focusElement] computes before it clicks. *)
Definition activates (autoSelect : option AutoSelect) (containerIndex : Z) : bool :=
  let select := false in
  let select :=
    match autoSelect with
    | Some (AutoSelectBool true) => true
    | _ => select
    end in
  let select :=
    match autoSelect with
    | Some (AutoSelectMap m) =>
        if default false (m !! containerIndex) then true else select
    | _ => select
    end in
  select.

(** The world after a successful switch onto [e]. *)
Definition switched (forwardDirection : bool) (e : Element) (w : World) : World :=
  let i := if forwardDirection then containerIndexState w + 1
           else containerIndexState w - 1 in
  {| activeElement := Some e;
     containerIndexState := i;
     defaultPrevented := true;
     effects := effects w ++ [PreventDefault; SetContainerIndex i; Focus e] |}.

(** The world after [focusElement] has focused [e]. *)
Definition focused (e : Element) (activate : bool) (w : World) : World :=
  {| activeElement := Some e;
     containerIndexState := containerIndexState w;
     defaultPrevented := true;
     effects := effects w ++ Focus e :: (if activate then [Click e] else [])
                         ++ [PreventDefault] |}.

(** The three possible outcomes of [handleEvents]: nothing happened, a
    neighbour inside the active container was focused, or focus moved into
    the candidate container. *)
Inductive Outcome (dom : Dom) (event : KeyboardEvent)
    (containers : list (option Element)) (containerIndex : Z)
    (options : option Options) (w : World) : World -> Prop :=
| Untouched : Outcome dom event containers containerIndex options w w
| Moved (container : Element) (elements : list Element) (e : Element) :
    switchRoute containers options event = false ->
    mjoin (index containers containerIndex) = Some container ->
    querySelectorAll dom container (resolvedSelectors options) = Some elements ->
    neighbour event (activeElement w) elements = Some e ->
    Outcome dom event containers containerIndex options w
      (focused e (activates (options ≫= autoSelect) containerIndex) w)
| Switched (candidate : Element) (found : list Element) (chosen : Element) :
    switchRoute containers options event = true ->
    candidateContainer event containers containerIndex = Some candidate ->
    focusableOf dom candidate (resolvedSelectors options) = Some found ->
    found <> [] ->
    checkForPreviouslyFocusedElement dom found (options ≫= selectedClassName)
    = Some chosen ->
    Outcome dom event containers containerIndex options w
      (switched (negb (previousInput event)) chosen w).

(** Class tokens of a class string, as [classList] splits it on spaces;
    the handlers never use it, it is what [hasMarker] is compared with. *)
Fixpoint classTokensFrom (current : string) (s : string) : list string :=
  match s with
  | EmptyString =>
      match current with EmptyString => [] | _ => [current] end
  | String c s' =>
      if Ascii.eqb c " "%char
      then match current with
           | EmptyString => classTokensFrom EmptyString s'
           | _ => current :: classTokensFrom EmptyString s'
           end
      else classTokensFrom (current ++ String c EmptyString)%string s'
  end.

Definition classTokens (s : string) : list string :=
  classTokensFrom EmptyString s.

(** ** A sample document

    Container 100 holds elements 1, 2; container 101 holds 3, 4 with 4
    carrying the marker class; container 102 holds nothing; container 103
    holds 5, 6, which only the universal selector finds, and 6 has the
    class [unselected]. Any selector starting with [!] is rejected. *)
Definition sampleQuery (container : Element) (selectors : string)
  : option (list Element) :=
  if String.prefix "!" selectors then None
  else match container with
       | 100%nat => Some [1; 2]%nat
       | 101%nat => Some [3; 4]%nat
       | 103%nat => if String.eqb selectors universalSelectors
                    then Some [5; 6]%nat else Some []
       | _ => Some []
       end.

Definition sampleClassName (element : Element) : string :=
  match element with
  | 4%nat => "item selected"
  | 6%nat => "unselected"
  | _ => "item"
  end.

Definition sampleDom : Dom :=
  {| querySelectorAll := sampleQuery; className := sampleClassName |}.

Definition keyDown (k : string) : KeyboardEvent :=
  {| key := k; shiftKey := false |}.

Definition sampleWorld (active : option Element) (i : Z) : World :=
  {| activeElement := active;
     containerIndexState := i;
     defaultPrevented := false;
     effects := [] |}.

Definition sampleOptions (a : AutoSelect) : Options :=
  {| selectors := None;
     autoSelect := Some a;
     tabKeyContainerLevel := None;
     selectedClassName := None |}.

(** Having the marker class, after the comment of
    [checkForPreviouslyFocusedElement] ("Checks for selected class"): the
    marker name is one of the class tokens of the element.  The handlers
    never use it; it is what their test [hasMarker] is compared with. *)
Definition hasClass (dom : Dom) (selectedClassName : option ClassName)
    (element : Element) : bool :=
  existsb (String.eqb (default SELECTED_CLASSNAME selectedClassName))
          (classTokens (className dom element)).

(** A second document: container 100 holds 1, 2; container 200 holds 3, 6,
    4 with the classes [item], [unselected], [item selected]; container
    201 holds 5, 6 with the classes [item], [unselected]. *)
Definition markerDom : Dom :=
  {| querySelectorAll := fun container _ =>
       match container with
       | 100%nat => Some [1; 2]%nat
       | 200%nat => Some [3; 6; 4]%nat
       | 201%nat => Some [5; 6]%nat
       | _ => Some []
       end;
     className := sampleClassName |}.

(** ** Resolving the configured containers *)

(** [type Container = ReactRefObject | string]: a React ref with its
    [current] node, which may be unset, or the id of a node. *)
Inductive Container : Type :=
| ContainerRef (current : option Element)
| ContainerId (id : string).

(** The first argument of the hook, [Container | Container[]]. *)
Inductive ContainerArg : Type :=
| OneContainer (container : Container)
| ManyContainers (containers : list Container).

(** [document.getElementById]. *)
Definition Document : Type := string -> option Element.

(** [parseContainer], lines 100-106. *)
Definition parseContainer (document : Document) (container : Container)
  : option Element :=
  match container with
  | ContainerRef current => current
  | ContainerId id => document id
  end.

(** The body of the hook's first effect, lines 266-274, as a function of
    the [containers] array it pushes onto.  On an empty array argument
    [container[0]] is [undefined], and [parseContainer] throws a
    [TypeError] when it reads [current] of it. *)
Definition populateContainers (document : Document) (container : ContainerArg)
    (containers : list (option Element)) : Completion (list (option Element)) :=
  match container with
  | ManyContainers cs =>
      match cs with
      | [] => Thrown TypeError
      | first :: _ =>
          match parseContainer document first with
          | Some _ =>
              if (length containers =? 0)%nat
              then Normal (containers ++ map (parseContainer document) cs)
              else Normal containers
          | None => Normal containers
          end
      end
  | OneContainer c =>
      if (length containers =? 0)%nat
      then Normal (containers ++ [parseContainer document c])
      else Normal containers
  end.

(** Ids of the sample document: [left] and [right] name the containers
    100 and 101; no other id names a node. *)
Definition sampleDocument : Document := fun id =>
  if String.eqb id "left" then Some 100%nat
  else if String.eqb id "right" then Some 101%nat
  else None.

(** ** Library facts *)

Lemma append_cons (c : ascii) (p q : string) :
  (String c p ++ q = String c (p ++ q))%string.
Proof. reflexivity. Qed.

Lemma prefix_empty (s : string) : String.prefix EmptyString s = true.
Proof. destruct s; reflexivity. Qed.

Lemma prefix_app (sub s : string) :
  String.prefix sub s = true <-> exists q, s = (sub ++ q)%string.
Proof.
  revert s; induction sub as [|c sub IH]; intros s.
  - rewrite prefix_empty. split; [intros _; exists s; reflexivity | reflexivity].
  - destruct s as [|d s]; simpl.
    + split; [discriminate | intros [q Hq]; discriminate].
    + destruct (ascii_dec c d) as [->|Hne].
      * rewrite IH. split; intros [q Hq]; exists q.
        -- rewrite append_cons. congruence.
        -- rewrite append_cons in Hq. congruence.
      * split; [discriminate|].
        intros [q Hq]. rewrite append_cons in Hq. congruence.
Qed.

Lemma includes_unfold (s sub : string) :
  includes s sub =
  if String.prefix sub s then true
  else match s with
       | EmptyString => false
       | String _ s' => includes s' sub
       end.
Proof. destruct s; reflexivity. Qed.

(** [includes] decides substring containment. *)
Lemma includes_substring (s sub : string) :
  includes s sub = true <-> exists p q, s = (p ++ sub ++ q)%string.
Proof.
  induction s as [|c s IH]; rewrite includes_unfold.
  - destruct (String.prefix sub EmptyString) eqn:Hp.
    + apply prefix_app in Hp as [q Hq].
      split; [intros _; exists EmptyString, q; exact Hq | reflexivity].
    + split; [discriminate|].
      intros [p [q Hq]]. destruct p as [|d p].
      * assert (String.prefix sub EmptyString = true) as E
          by (apply prefix_app; exists q; exact Hq).
        congruence.
      * rewrite append_cons in Hq. discriminate.
  - destruct (String.prefix sub (String c s)) eqn:Hp.
    + apply prefix_app in Hp as [q Hq].
      split; [intros _; exists EmptyString, q; exact Hq | reflexivity].
    + rewrite IH. split.
      * intros [p [q Hq]]. exists (String c p), q.
        rewrite append_cons. congruence.
      * intros [p [q Hq]]. destruct p as [|d p].
        -- assert (String.prefix sub (String c s) = true) as E
             by (apply prefix_app; exists q; exact Hq).
           congruence.
        -- rewrite append_cons in Hq. exists p, q. congruence.
Qed.

Lemma index_negative {A} (xs : list A) (i : Z) : i < 0 -> index xs i = None.
Proof.
  intros Hi. unfold index. destruct (Z.ltb_spec i 0); [reflexivity | lia].
Qed.

Lemma index_zero {A} (xs : list A) : index xs 0 = head xs.
Proof. destruct xs; reflexivity. Qed.

Lemma index_beyond {A} (xs : list A) (i : Z) :
  Z.of_nat (length xs) <= i -> index xs i = None.
Proof.
  intros Hi. unfold index. destruct (Z.ltb_spec i 0); [reflexivity|].
  apply lookup_ge_None. lia.
Qed.

Lemma index_in_range {A} (xs : list A) (i : Z) (x : A) :
  index xs i = Some x -> 0 <= i < Z.of_nat (length xs).
Proof.
  unfold index. destruct (Z.ltb_spec i 0); [discriminate|].
  intros Hx. apply lookup_lt_Some in Hx. lia.
Qed.

Lemma findIndexFrom_absent {A} (p : A -> bool) (xs : list A) (i : Z) :
  (forall x, In x xs -> p x = false) -> findIndexFrom p xs i = -1.
Proof.
  revert i; induction xs as [|x xs IH]; intros i Hp; simpl; [reflexivity|].
  rewrite (Hp x) by (left; reflexivity).
  apply IH. intros y Hy. apply Hp. right; exact Hy.
Qed.

Lemma findIndexFrom_at_end {A} (p : A -> bool) (pre : list A) (x : A) (i : Z) :
  (forall y, In y pre -> p y = false) -> p x = true ->
  findIndexFrom p (pre ++ [x]) i = i + Z.of_nat (length pre).
Proof.
  revert i; induction pre as [|y pre IH]; intros i Hpre Hx; simpl.
  - rewrite Hx. lia.
  - rewrite (Hpre y) by (left; reflexivity).
    rewrite IH; [lia | | exact Hx].
    intros z Hz. apply Hpre. right; exact Hz.
Qed.

Lemma find_none_iff {A} (p : A -> bool) (xs : list A) :
  find p xs = None <-> forall x, In x xs -> p x = false.
Proof.
  split; [apply find_none|].
  induction xs as [|x xs IH]; intros Hp; simpl; [reflexivity|].
  rewrite (Hp x) by (left; reflexivity).
  apply IH. intros y Hy. apply Hp. right; exact Hy.
Qed.

Lemma find_first {A} (p : A -> bool) (pre post : list A) (x : A) :
  (forall y, In y pre -> p y = false) -> p x = true ->
  find p (pre ++ x :: post) = Some x.
Proof.
  induction pre as [|y pre IH]; intros Hpre Hx; simpl.
  - rewrite Hx. reflexivity.
  - rewrite (Hpre y) by (left; reflexivity).
    apply IH; [|exact Hx]. intros z Hz. apply Hpre. right; exact Hz.
Qed.

(** A list whose filter is the singleton [m] has [m] as its first hit. *)
Lemma find_unique {A} (p : A -> bool) (xs : list A) (m : A) :
  List.filter p xs = [m] -> find p xs = Some m.
Proof.
  induction xs as [|x xs IH]; simpl; [discriminate|].
  destruct (p x); [intros [= ->]; reflexivity | exact IH].
Qed.

(** ** The handlers in closed form *)

Ltac run_js :=
  unfold mbind, JS_bind, bind, ret, throw, focus, click, preventDefault,
    setContainerIndex, documentActiveElement; simpl.

Lemma handleUpDown_neighbour event active elements containerIndex policy :
  handleUpDown event active elements containerIndex policy
  = focusElement (neighbour event active elements) event containerIndex policy.
Proof. reflexivity. Qed.

Lemma focusElement_absent event containerIndex policy w :
  focusElement None event containerIndex policy w = (Normal tt, w).
Proof. reflexivity. Qed.

Lemma focusElement_present e event containerIndex policy w :
  focusElement (Some e) event containerIndex policy w
  = (Normal tt, focused e (activates policy containerIndex) w).
Proof.
  unfold focusElement, focused.
  change (match policy with
          | Some (AutoSelectMap m) =>
              if default false (m !! containerIndex) then true
              else match policy with
                   | Some (AutoSelectBool true) => true
                   | _ => false
                   end
          | _ => match policy with
                 | Some (AutoSelectBool true) => true
                 | _ => false
                 end
          end) with (activates policy containerIndex).
  destruct (activates policy containerIndex); run_js;
    rewrite <- ?app_assoc; reflexivity.
Qed.

Lemma activates_iff policy containerIndex :
  activates policy containerIndex = true <->
  policy = Some (AutoSelectBool true)
  \/ exists m, policy = Some (AutoSelectMap m) /\ m !! containerIndex = Some true.
Proof.
  unfold activates. destruct policy as [[[|]|m]|]; simpl.
  - split; [left; reflexivity | reflexivity].
  - split; [discriminate | intros [H | [m [H _]]]; discriminate].
  - destruct (m !! containerIndex) as [[|]|] eqn:E; simpl.
    + split; [right; exists m; split; [reflexivity | exact E] | reflexivity].
    + split; [discriminate|].
      intros [H | [m' [H H']]]; [discriminate|]. injection H as <-. congruence.
    + split; [discriminate|].
      intros [H | [m' [H H']]]; [discriminate|]. injection H as <-. congruence.
  - split; [discriminate | intros [H | [m [H _]]]; discriminate].
Qed.

Section HandlerFacts.
Variable dom : Dom.

Lemma checkForPreviouslyFocusedElement_find elements name :
  checkForPreviouslyFocusedElement dom elements name
  = match find (hasMarker dom name) elements with
    | Some e => Some e
    | None => head elements
    end.
Proof.
  unfold checkForPreviouslyFocusedElement, hasMarker.
  rewrite index_zero. reflexivity.
Qed.

(** A non-empty list always yields an element. *)
Lemma checkForPreviouslyFocusedElement_nonempty e elements name :
  exists chosen,
    checkForPreviouslyFocusedElement dom (e :: elements) name = Some chosen
    /\ In chosen (e :: elements).
Proof.
  rewrite checkForPreviouslyFocusedElement_find.
  destruct (find _ _) as [x|] eqn:E.
  - exists x. split; [reflexivity|]. apply find_some in E. tauto.
  - exists e. split; [reflexivity | left; reflexivity].
Qed.

Lemma moveToContainer_absent setter forwardDirection event selectors name w :
  moveToContainer dom None setter forwardDirection event selectors name w
  = (Normal tt, w).
Proof. reflexivity. Qed.

Lemma moveToContainer_present c forwardDirection event selectors name w :
  moveToContainer dom (Some c) setContainerIndex forwardDirection event
                  (Some selectors) name w
  = match focusableOf dom c selectors with
    | None => (Thrown SyntaxError, w)
    | Some [] => (Normal tt, w)
    | Some (e :: found) =>
        match checkForPreviouslyFocusedElement dom (e :: found) name with
        | Some chosen => (Normal tt, switched forwardDirection chosen w)
        | None => (Normal tt, w)
        end
    end.
Proof.
  unfold moveToContainer, getFocusableElements, focusableOf, universalSelectors.
  simpl default.
  destruct (querySelectorAll dom c selectors) as [[|e found]|]; run_js.
  - destruct (querySelectorAll dom c _) as [[|e found]|]; simpl; try reflexivity.
    destruct (checkForPreviouslyFocusedElement dom (e :: found) name);
      [|reflexivity].
    unfold switched. destruct forwardDirection; simpl;
      rewrite <- ?app_assoc; reflexivity.
  - destruct (checkForPreviouslyFocusedElement dom (e :: found) name);
      [|reflexivity].
    unfold switched. destruct forwardDirection; simpl;
      rewrite <- ?app_assoc; reflexivity.
  - reflexivity.
Qed.

Lemma handleSwitchContainer_candidate event containers containerIndex setter
    selectors name :
  handleSwitchContainer dom event containers containerIndex setter selectors name
  = moveToContainer dom (candidateContainer event containers containerIndex)
                    setter (negb (previousInput event)) event
                    (Some selectors) name.
Proof.
  unfold handleSwitchContainer, candidateContainer, nextInput, previousInput.
  destruct (_ || _); simpl; [reflexivity|].
  destruct (_ || _); reflexivity.
Qed.

Lemma handleEvents_closed event containers containerIndex setter options w :
  handleEvents dom event containers containerIndex setter options w
  = if (length containers =? 0)%nat then (Normal tt, w)
    else if negb (recognizedKey (key event)) then (Normal tt, w)
    else match mjoin (index containers containerIndex) with
         | None => (Thrown TypeError, w)
         | Some container =>
             match querySelectorAll dom container (resolvedSelectors options) with
             | None => (Thrown SyntaxError, w)
             | Some elements =>
                 if switchRoute containers options event
                 then handleSwitchContainer dom event containers containerIndex
                        setter (resolvedSelectors options)
                        (options ≫= selectedClassName) w
                 else handleUpDown event (activeElement w) elements
                        containerIndex (options ≫= autoSelect) w
             end
         end.
Proof.
  unfold handleEvents, recognizedKey, resolvedSelectors, switchRoute.
  destruct (length containers =? 0)%nat; [reflexivity|].
  run_js.
  destruct (negb _); [reflexivity|].
  destruct options as [o|]; simpl;
    (destruct (mjoin (index containers containerIndex)) as [c|];
     [|reflexivity]);
    (destruct (querySelectorAll dom c _); [|reflexivity]);
    match goal with |- context [if ?b then handleSwitchContainer _ _ _ _ _ _ _ else _] =>
      destruct b; reflexivity end.
Qed.

End HandlerFacts.

(** ** What one call can do to the world *)

Lemma candidateContainer_present event containers containerIndex c :
  candidateContainer event containers containerIndex = Some c ->
  (previousInput event = true /\ 0 < containerIndex
   /\ containerIndex - 1 < Z.of_nat (length containers))
  \/ (previousInput event = false /\ nextInput event = true
      /\ 0 <= containerIndex + 1
      /\ containerIndex < Z.of_nat (length containers) - 1).
Proof.
  unfold candidateContainer.
  destruct (previousInput event) eqn:Hprev.
  - destruct (Z.ltb_spec 0 containerIndex) as [Hpos|]; [|discriminate].
    intros Hc. left. split; [reflexivity|]. split; [exact Hpos|].
    destruct (index containers (containerIndex - 1)) as [o|] eqn:E;
      [|discriminate].
    apply index_in_range in E. lia.
  - destruct (nextInput event) eqn:Hnext; [|discriminate].
    destruct (Z.ltb_spec containerIndex (Z.of_nat (length containers) - 1))
      as [Hlt|]; [|discriminate].
    intros Hc. right. split; [reflexivity|]. split; [reflexivity|].
    destruct (index containers (containerIndex + 1)) as [o|] eqn:E;
      [|discriminate].
    apply index_in_range in E. lia.
Qed.

Lemma handleEvents_outcome dom event containers containerIndex options w :
  Outcome dom event containers containerIndex options w
    (handleEvents dom event containers containerIndex setContainerIndex options w).2.
Proof.
  rewrite handleEvents_closed.
  destruct (length containers =? 0)%nat; [constructor|].
  destruct (negb _); [constructor|].
  destruct (mjoin (index containers containerIndex)) as [c|] eqn:Hc;
    [|constructor].
  destruct (querySelectorAll dom c _) as [elements|] eqn:Hq; [|constructor].
  destruct (switchRoute containers options event) eqn:Hroute.
  - rewrite handleSwitchContainer_candidate.
    destruct (candidateContainer event containers containerIndex)
      as [candidate|] eqn:Hcand; [|constructor].
    rewrite moveToContainer_present.
    destruct (focusableOf dom candidate _) as [[|e found]|] eqn:Hf;
      try constructor.
    destruct (checkForPreviouslyFocusedElement dom (e :: found) _)
      as [chosen|] eqn:Hsel; [|constructor].
    simpl. eapply Switched; eauto; discriminate.
  - rewrite handleUpDown_neighbour.
    destruct (neighbour event (activeElement w) elements) as [e|] eqn:Hn.
    + rewrite focusElement_present. simpl. eapply Moved; eauto.
    + constructor.
Qed.

(** ** Focus Actuator *)

(** C3: [focusElement] given no element does nothing; given an element it
    focuses it, always calls [preventDefault], and clicks it exactly when
    the policy is the boolean [true] or a map whose entry at the container
    index is [true]; with the map [{1: true}] it clicks at index 1 and not
    at index 0 or 2. *)
Theorem focusElement_actuator :
  (forall event containerIndex policy w,
      focusElement None event containerIndex policy w = (Normal tt, w))
  /\ (forall e event containerIndex policy w,
        exists activate : bool,
          focusElement (Some e) event containerIndex policy w
          = (Normal tt,
             {| activeElement := Some e;
                containerIndexState := containerIndexState w;
                defaultPrevented := true;
                effects := effects w
                           ++ Focus e :: (if activate then [Click e] else [])
                           ++ [PreventDefault] |})
          /\ (activate = true <->
              policy = Some (AutoSelectBool true)
              \/ exists m, policy = Some (AutoSelectMap m)
                           /\ m !! containerIndex = Some true))
  /\ (forall e event w,
        let policy := Some (AutoSelectMap {[ 1 := true ]}) in
        effects (focusElement (Some e) event 1 policy w).2
        = effects w ++ [Focus e; Click e; PreventDefault]
        /\ effects (focusElement (Some e) event 0 policy w).2
           = effects w ++ [Focus e; PreventDefault]
        /\ effects (focusElement (Some e) event 2 policy w).2
           = effects w ++ [Focus e; PreventDefault]).
Proof.
  split; [|split].
  - intros. apply focusElement_absent.
  - intros e event containerIndex policy w.
    exists (activates policy containerIndex).
    split; [apply focusElement_present | apply activates_iff].
  - intros e event w policy. subst policy.
    rewrite !focusElement_present. unfold activates, focused. simpl.
    rewrite lookup_singleton_eq.
    rewrite !lookup_singleton_ne by lia.
    simpl. repeat split; reflexivity.
Qed.

(** ** Intra-container navigation *)

Lemma neighbour_up event active elements :
  key event = "ArrowUp" ->
  neighbour event active elements
  = index elements
      (findIndex (fun x => bool_decide (Some x = active)) elements - 1).
Proof. intros Hk. unfold neighbour. rewrite Hk. reflexivity. Qed.

Lemma neighbour_down event active elements :
  key event = "ArrowDown" ->
  neighbour event active elements
  = index elements
      (findIndex (fun x => bool_decide (Some x = active)) elements + 1).
Proof. intros Hk. unfold neighbour. rewrite Hk. reflexivity. Qed.

Lemma neighbour_other_key event active elements :
  key event <> "ArrowUp" -> key event <> "ArrowDown" ->
  neighbour event active elements = None.
Proof.
  intros Hu Hd. unfold neighbour.
  apply String.eqb_neq in Hu, Hd. rewrite Hu, Hd. reflexivity.
Qed.

Lemma index_nil {A} (i : Z) : index (@nil A) i = None.
Proof. unfold index. destruct (i <? 0); reflexivity. Qed.

Lemma neighbour_of_nothing event active : neighbour event active [] = None.
Proof.
  unfold neighbour. rewrite !index_nil.
  destruct (String.eqb (key event) "ArrowDown"),
           (String.eqb (key event) "ArrowUp"); reflexivity.
Qed.

Lemma findIndex_absent (active : option Element) (elements : list Element) :
  (forall e, In e elements -> Some e <> active) ->
  findIndex (fun x => bool_decide (Some x = active)) elements = -1.
Proof.
  intros Habsent. apply findIndexFrom_absent.
  intros x Hx. apply bool_decide_eq_false. apply Habsent, Hx.
Qed.

Lemma findIndex_first (e0 : Element) (rest : list Element) :
  findIndex (fun x => bool_decide (Some x = Some e0)) (e0 :: rest) = 0.
Proof.
  unfold findIndex. simpl. rewrite bool_decide_eq_true_2; reflexivity.
Qed.

Lemma findIndex_last (pre : list Element) (en : Element) :
  NoDup (pre ++ [en]) ->
  findIndex (fun x => bool_decide (Some x = Some en)) (pre ++ [en])
  = Z.of_nat (length pre).
Proof.
  intros Hnd. unfold findIndex. rewrite findIndexFrom_at_end.
  - lia.
  - intros y Hy. apply bool_decide_eq_false. intros [= ->].
    apply NoDup_app in Hnd as (_ & Hdisj & _).
    apply (Hdisj en); [apply list_elem_of_In; exact Hy | left].
  - apply bool_decide_eq_true_2. reflexivity.
Qed.

(** C1 as stated fails: with elements 1, 2 and the focus on a node outside
    the sequence, ArrowDown is not a no-op; the first element is focused
    and the default handling is suppressed. *)
Lemma handleUpDown_outside_down_focuses_first :
  (forall e : Element, In e [1; 2]%nat -> Some e <> Some 9%nat)
  /\ handleUpDown (keyDown "ArrowDown") (Some 9%nat) [1; 2]%nat 0 None
                  (sampleWorld (Some 9%nat) 0)
     = (Normal tt,
        {| activeElement := Some 1%nat;
           containerIndexState := 0;
           defaultPrevented := true;
           effects := [Focus 1%nat; PreventDefault] |}).
Proof.
  split; [|reflexivity].
  intros e [<- | [<- | []]]; discriminate.
Qed.

(** C1, amended: when the focused element is not in the sequence, ArrowUp
    is a no-op, while ArrowDown hands the first element of the sequence to
    [focusElement]: it is focused, the default handling is suppressed and
    it is clicked as the policy says; ArrowDown is a no-op only when the
    sequence is empty. *)
Theorem handleUpDown_focus_outside event active elements containerIndex policy w :
  (forall e, In e elements -> Some e <> active) ->
  (key event = "ArrowUp" ->
   handleUpDown event active elements containerIndex policy w = (Normal tt, w))
  /\ (key event = "ArrowDown" ->
      handleUpDown event active elements containerIndex policy w
      = match elements with
        | [] => (Normal tt, w)
        | first :: _ =>
            (Normal tt, focused first (activates policy containerIndex) w)
        end).
Proof.
  intros Habsent. rewrite handleUpDown_neighbour. split; intros Hk.
  - rewrite neighbour_up, findIndex_absent by assumption.
    rewrite index_negative by lia. apply focusElement_absent.
  - rewrite neighbour_down, findIndex_absent by assumption.
    change (-1 + 1) with 0. rewrite index_zero.
    destruct elements as [|first rest]; simpl head.
    + apply focusElement_absent.
    + apply focusElement_present.
Qed.

Lemma handleUpDown_focus_outside_witness :
  (forall e : Element, In e [1; 2]%nat -> Some e <> Some 9%nat)
  /\ (key (keyDown "ArrowDown") = "ArrowUp" ->
   handleUpDown (keyDown "ArrowDown") (Some 9%nat) [1; 2]%nat 0
                (Some (AutoSelectBool true)) (sampleWorld (Some 9%nat) 0)
   = (Normal tt, sampleWorld (Some 9%nat) 0))
  /\ (key (keyDown "ArrowDown") = "ArrowDown" ->
      handleUpDown (keyDown "ArrowDown") (Some 9%nat) [1; 2]%nat 0
                   (Some (AutoSelectBool true)) (sampleWorld (Some 9%nat) 0)
      = (Normal tt,
         focused 1%nat (activates (Some (AutoSelectBool true)) 0)
                 (sampleWorld (Some 9%nat) 0))).
Proof.
  assert (forall e : Element, In e [1; 2]%nat -> Some e <> Some 9%nat) as Hout
    by (intros e [<- | [<- | []]]; discriminate).
  split; [exact Hout|].
  apply (handleUpDown_focus_outside (keyDown "ArrowDown") (Some 9%nat)
           [1; 2]%nat 0 (Some (AutoSelectBool true))
           (sampleWorld (Some 9%nat) 0) Hout).
Defined.

(** C7: in a sequence without repetitions, ArrowUp with the first element
    focused and ArrowDown with the last element focused change nothing,
    both in [handleUpDown] and through [handleEvents] on the active
    container. *)
Theorem handleUpDown_clamps dom event elements containerIndex policy w :
  NoDup elements ->
  (key event = "ArrowUp" -> forall e0, head elements = Some e0 ->
   handleUpDown event (Some e0) elements containerIndex policy w = (Normal tt, w))
  /\ (key event = "ArrowDown" -> forall en, last elements = Some en ->
      handleUpDown event (Some en) elements containerIndex policy w
      = (Normal tt, w))
  /\ (forall containers options container,
        mjoin (index containers containerIndex) = Some container ->
        querySelectorAll dom container (resolvedSelectors options) = Some elements ->
        (key event = "ArrowUp" /\ head elements = activeElement w
         \/ key event = "ArrowDown" /\ last elements = activeElement w) ->
        handleEvents dom event containers containerIndex setContainerIndex
                     options w
        = (Normal tt, w)).
Proof.
  intros Hnd.
  assert (forall p, key event = "ArrowUp" ->
          forall e0, head elements = Some e0 ->
          handleUpDown event (Some e0) elements containerIndex p w
          = (Normal tt, w)) as Hup.
  { intros p Hk e0 Hhead. destruct elements as [|x rest]; [discriminate|].
    injection Hhead as ->.
    rewrite handleUpDown_neighbour, neighbour_up, findIndex_first by assumption.
    rewrite index_negative by lia. apply focusElement_absent. }
  assert (forall p, key event = "ArrowDown" ->
          forall en, last elements = Some en ->
          handleUpDown event (Some en) elements containerIndex p w
          = (Normal tt, w)) as Hdown.
  { intros p Hk en Hlast. apply last_Some in Hlast as [pre ->].
    rewrite handleUpDown_neighbour, neighbour_down, findIndex_last by assumption.
    rewrite index_beyond; [apply focusElement_absent|].
    rewrite length_app. simpl. lia. }
  split; [apply Hup | split; [apply Hdown|]].
  intros containers options container Hc Hq Hcase.
  rewrite handleEvents_closed, Hc, Hq.
  assert (containers <> []) as Hne.
  { intros ->. unfold index in Hc. destruct (containerIndex <? 0); discriminate. }
  destruct containers as [|c0 cs]; [contradiction|]. simpl length.
  change (S (length cs) =? 0)%nat with false.
  assert (recognizedKey (key event) = true
          /\ switchRoute (c0 :: cs) options event = false) as [-> ->].
  { unfold recognizedKey, switchRoute.
    destruct Hcase as [[-> _] | [-> _]]; simpl;
      rewrite andb_false_r; split; reflexivity. }
  cbv iota. change (negb true) with false. cbv iota.
  destruct (activeElement w) as [a|] eqn:Ha.
  - destruct Hcase as [[Hk Hh] | [Hk Hl]].
    + apply Hup; assumption.
    + apply Hdown; assumption.
  - assert (elements = []) as ->.
    { destruct Hcase as [[_ Hh] | [_ Hl]].
      - destruct elements; [reflexivity | discriminate].
      - apply last_None. exact Hl. }
    rewrite handleUpDown_neighbour, neighbour_of_nothing.
    apply focusElement_absent.
Qed.

Lemma handleUpDown_clamps_witness :
  NoDup [1; 2]%nat
  /\ (key (keyDown "ArrowDown") = "ArrowUp" ->
   forall e0, head [1; 2]%nat = Some e0 ->
   handleUpDown (keyDown "ArrowDown") (Some e0) [1; 2]%nat 0 None
                (sampleWorld (Some 2%nat) 0)
   = (Normal tt, sampleWorld (Some 2%nat) 0))
  /\ (key (keyDown "ArrowDown") = "ArrowDown" ->
      forall en, last [1; 2]%nat = Some en ->
      handleUpDown (keyDown "ArrowDown") (Some en) [1; 2]%nat 0 None
                   (sampleWorld (Some 2%nat) 0)
      = (Normal tt, sampleWorld (Some 2%nat) 0))
  /\ (forall containers options container,
        mjoin (index containers 0) = Some container ->
        querySelectorAll sampleDom container (resolvedSelectors options)
        = Some [1; 2]%nat ->
        (key (keyDown "ArrowDown") = "ArrowUp"
         /\ head [1; 2]%nat = activeElement (sampleWorld (Some 2%nat) 0)
         \/ key (keyDown "ArrowDown") = "ArrowDown"
            /\ last [1; 2]%nat = activeElement (sampleWorld (Some 2%nat) 0)) ->
        handleEvents sampleDom (keyDown "ArrowDown") containers 0
                     setContainerIndex options (sampleWorld (Some 2%nat) 0)
        = (Normal tt, sampleWorld (Some 2%nat) 0)).
Proof.
  assert (NoDup [1; 2]%nat) as Hnd
    by (apply (bool_decide_unpack (NoDup [1; 2]%nat)); vm_compute; exact I).
  split; [exact Hnd|].
  apply (handleUpDown_clamps sampleDom (keyDown "ArrowDown") [1; 2]%nat 0 None
           (sampleWorld (Some 2%nat) 0) Hnd).
Defined.

(** The clamp at work on the sample document: ArrowDown on the last
    element of container 100 leaves the world as it was. *)
Example handleEvents_clamp_sample :
  handleEvents sampleDom (keyDown "ArrowDown") [Some 100%nat; Some 101%nat] 0
               setContainerIndex None (sampleWorld (Some 2%nat) 0)
  = (Normal tt, sampleWorld (Some 2%nat) 0).
Proof. reflexivity. Qed.

(** ** Selection Memory *)

(** With the marker test the code applies, a substring test on the class
    string: [checkForPreviouslyFocusedElement] returns the first element
    that passes it, else the first element, else nothing for an empty
    sequence, and a switch focuses accordingly. *)
Theorem selection_memory dom name :
  (forall pre m post,
      (forall x, In x pre -> hasMarker dom name x = false) ->
      hasMarker dom name m = true ->
      checkForPreviouslyFocusedElement dom (pre ++ m :: post) name = Some m)
  /\ (forall first rest,
        (forall x, In x (first :: rest) -> hasMarker dom name x = false) ->
        checkForPreviouslyFocusedElement dom (first :: rest) name = Some first)
  /\ checkForPreviouslyFocusedElement dom [] name = None
  /\ (forall container forwardDirection event selectors found m w,
        focusableOf dom container selectors = Some found ->
        List.filter (hasMarker dom name) found = [m] ->
        moveToContainer dom (Some container) setContainerIndex forwardDirection
                        event (Some selectors) name w
        = (Normal tt, switched forwardDirection m w)
        /\ activeElement (switched forwardDirection m w) = Some m)
  /\ (forall container forwardDirection event selectors first rest w,
        focusableOf dom container selectors = Some (first :: rest) ->
        List.filter (hasMarker dom name) (first :: rest) = [] ->
        moveToContainer dom (Some container) setContainerIndex forwardDirection
                        event (Some selectors) name w
        = (Normal tt, switched forwardDirection first w)
        /\ activeElement (switched forwardDirection first w) = Some first).
Proof.
  split; [|split; [|split; [|split]]].
  - intros pre m post Hpre Hm.
    rewrite checkForPreviouslyFocusedElement_find.
    rewrite (find_first _ pre post m Hpre Hm). reflexivity.
  - intros first rest Hnone.
    rewrite checkForPreviouslyFocusedElement_find.
    apply find_none_iff in Hnone. rewrite Hnone. reflexivity.
  - reflexivity.
  - intros container forwardDirection event selectors found m w Hfound Hone.
    split; [|reflexivity].
    rewrite moveToContainer_present, Hfound.
    assert (find (hasMarker dom name) found = Some m) as Hfind
      by (apply find_unique; assumption).
    destruct found as [|e found]; [discriminate|].
    rewrite checkForPreviouslyFocusedElement_find, Hfind. reflexivity.
  - intros container forwardDirection event selectors first rest w Hfound Hnone.
    split; [|reflexivity].
    rewrite moveToContainer_present, Hfound.
    rewrite checkForPreviouslyFocusedElement_find.
    assert (find (hasMarker dom name) (first :: rest) = None) as ->;
      [|reflexivity].
    apply find_none_iff. intros x Hx.
    destruct (hasMarker dom name x) eqn:E; [|reflexivity].
    assert (In x (List.filter (hasMarker dom name) (first :: rest))) as Hin
      by (apply filter_In; split; assumption).
    rewrite Hnone in Hin. destruct Hin.
Qed.

(** C4 fails on the code, which tests the class string for a substring
    where its comment speaks of the selected class.  In container 200
    exactly one element, 4, has the class [selected], yet Selection Memory
    returns 6, whose class is [unselected], and a switch into the
    container focuses 6; in container 201 no element has the class, yet
    the switch focuses 6 and not the first element 5. *)
Theorem selection_memory_takes_substring_for_class :
  List.filter (hasClass markerDom None) [3; 6; 4]%nat = [4%nat]
  /\ checkForPreviouslyFocusedElement markerDom [3; 6; 4]%nat None = Some 6%nat
  /\ handleEvents markerDom (keyDown "ArrowRight") [Some 100%nat; Some 200%nat]
                  0 setContainerIndex None (sampleWorld (Some 1%nat) 0)
     = (Normal tt,
        {| activeElement := Some 6%nat;
           containerIndexState := 1;
           defaultPrevented := true;
           effects := [PreventDefault; SetContainerIndex 1; Focus 6%nat] |})
  /\ List.filter (hasClass markerDom None) [5; 6]%nat = []
  /\ checkForPreviouslyFocusedElement markerDom [5; 6]%nat None = Some 6%nat
  /\ handleEvents markerDom (keyDown "ArrowRight") [Some 100%nat; Some 201%nat]
                  0 setContainerIndex None (sampleWorld (Some 1%nat) 0)
     = (Normal tt,
        {| activeElement := Some 6%nat;
           containerIndexState := 1;
           defaultPrevented := true;
           effects := [PreventDefault; SetContainerIndex 1; Focus 6%nat] |}).
Proof. repeat split; reflexivity. Qed.

(** On the sample document: container 101 holds 3 and the marked 4, and a
    switch to the right from container 100 focuses 4. *)
Example switch_focuses_marked_sample :
  handleEvents sampleDom (keyDown "ArrowRight") [Some 100%nat; Some 101%nat] 0
               setContainerIndex None (sampleWorld (Some 1%nat) 0)
  = (Normal tt,
     {| activeElement := Some 4%nat;
        containerIndexState := 1;
        defaultPrevented := true;
        effects := [PreventDefault; SetContainerIndex 1; Focus 4%nat] |}).
Proof. reflexivity. Qed.

(** C9: the marker test is substring containment on the whole class
    string: on the sample document, element 6 with class [unselected],
    which has no class token [selected], is chosen ahead of the first
    element 5 under the default marker. *)
Theorem marker_test_is_substring :
  (forall dom name e,
      hasMarker dom name e = true <->
      exists p q,
        className dom e = (p ++ default SELECTED_CLASSNAME name ++ q)%string)
  /\ SELECTED_CLASSNAME = "selected"
  /\ className sampleDom 6%nat = "unselected"
  /\ classTokens (className sampleDom 6%nat) = ["unselected"]
  /\ hasMarker sampleDom None 6%nat = true
  /\ hasMarker sampleDom None 5%nat = false
  /\ checkForPreviouslyFocusedElement sampleDom [5; 6]%nat None = Some 6%nat.
Proof.
  split; [|repeat split; reflexivity].
  intros dom name e. unfold hasMarker. apply includes_substring.
Qed.

(** ** Inter-container navigation *)

(** C5: [moveToContainer] does nothing without a container; otherwise it
    uses the elements found by the given selector, or, when there are
    none, those found by the universal selector, and does nothing when
    that finds none either. *)
Theorem moveToContainer_fallback dom :
  (forall forwardDirection event selectors name w,
      moveToContainer dom None setContainerIndex forwardDirection event
                      selectors name w
      = (Normal tt, w))
  /\ (forall event containers containerIndex selectors name w,
        handleSwitchContainer dom event containers containerIndex
                              setContainerIndex selectors name w
        = match candidateContainer event containers containerIndex with
          | None => (Normal tt, w)
          | Some candidate =>
              moveToContainer dom (Some candidate) setContainerIndex
                              (negb (previousInput event)) event
                              (Some selectors) name w
          end)
  /\ (forall container forwardDirection event selectors name w e found,
        querySelectorAll dom container selectors = Some (e :: found) ->
        exists chosen,
          checkForPreviouslyFocusedElement dom (e :: found) name = Some chosen
          /\ moveToContainer dom (Some container) setContainerIndex
                             forwardDirection event (Some selectors) name w
             = (Normal tt, switched forwardDirection chosen w))
  /\ (forall container forwardDirection event selectors name w e found,
        querySelectorAll dom container selectors = Some [] ->
        querySelectorAll dom container (parseSelectors (ManySelectors allSelectors))
        = Some (e :: found) ->
        exists chosen,
          checkForPreviouslyFocusedElement dom (e :: found) name = Some chosen
          /\ moveToContainer dom (Some container) setContainerIndex
                             forwardDirection event (Some selectors) name w
             = (Normal tt, switched forwardDirection chosen w))
  /\ (forall container forwardDirection event selectors name w,
        querySelectorAll dom container selectors = Some [] ->
        querySelectorAll dom container (parseSelectors (ManySelectors allSelectors))
        = Some [] ->
        moveToContainer dom (Some container) setContainerIndex
                        forwardDirection event (Some selectors) name w
        = (Normal tt, w)).
Proof.
  split; [|split; [|split; [|split]]].
  - intros. apply moveToContainer_absent.
  - intros. rewrite handleSwitchContainer_candidate.
    destruct (candidateContainer event containers containerIndex);
      [reflexivity | apply moveToContainer_absent].
  - intros container forwardDirection event selectors name w e found Hq.
    destruct (checkForPreviouslyFocusedElement_nonempty dom e found name)
      as [chosen [Hsel _]].
    exists chosen. split; [exact Hsel|].
    rewrite moveToContainer_present. unfold focusableOf.
    rewrite Hq, Hsel. reflexivity.
  - intros container forwardDirection event selectors name w e found Hq Hall.
    destruct (checkForPreviouslyFocusedElement_nonempty dom e found name)
      as [chosen [Hsel _]].
    exists chosen. split; [exact Hsel|].
    rewrite moveToContainer_present. unfold focusableOf, universalSelectors.
    rewrite Hq, Hall, Hsel. reflexivity.
  - intros container forwardDirection event selectors name w Hq Hall.
    rewrite moveToContainer_present. unfold focusableOf, universalSelectors.
    rewrite Hq, Hall. reflexivity.
Qed.

(** The fallback on the sample document: container 103 answers the
    selector [.item] with nothing and the universal selector with 5, 6. *)
Example moveToContainer_fallback_sample :
  moveToContainer sampleDom (Some 103%nat) setContainerIndex true
                  (keyDown "ArrowRight") (Some ".item") (Some "absent")
                  (sampleWorld None 0)
  = (Normal tt, switched true 5%nat (sampleWorld None 0)).
Proof. reflexivity. Qed.

(** C6: on the container-switch route no element is ever clicked,
    whatever the options say: the call either adds nothing to the log of
    host calls or adds [preventDefault], the index update and the focus of
    the chosen element. *)
Theorem switch_never_activates dom event containers containerIndex options w :
  switchRoute containers options event = true ->
  exists added,
    effects (handleEvents dom event containers containerIndex
                          setContainerIndex options w).2
    = effects w ++ added
    /\ (forall e, ~ In (Click e) added)
    /\ (added = []
        \/ exists i chosen,
             added = [PreventDefault; SetContainerIndex i; Focus chosen]
             /\ activeElement (handleEvents dom event containers containerIndex
                                            setContainerIndex options w).2
                = Some chosen).
Proof.
  intros Hroute.
  destruct (handleEvents_outcome dom event containers containerIndex options w)
    as [| c elements e Hno | candidate found chosen _ _ _ _ _].
  - exists []. rewrite app_nil_r. split; [reflexivity|].
    split; [intros e [] | left; reflexivity].
  - congruence.
  - eexists. split; [reflexivity|]. split.
    + intros e [H | [H | [H | []]]]; discriminate.
    + right. eexists _, chosen. split; reflexivity.
Qed.

Lemma switch_never_activates_witness :
  switchRoute [Some 100%nat; Some 101%nat]
              (Some (sampleOptions (AutoSelectBool true)))
              (keyDown "ArrowRight")
  = true
  /\ exists added,
    effects (handleEvents sampleDom (keyDown "ArrowRight")
               [Some 100%nat; Some 101%nat] 0 setContainerIndex
               (Some (sampleOptions (AutoSelectBool true)))
               (sampleWorld (Some 1%nat) 0)).2
    = effects (sampleWorld (Some 1%nat) 0) ++ added
    /\ (forall e, ~ In (Click e) added)
    /\ (added = []
        \/ exists i chosen,
             added = [PreventDefault; SetContainerIndex i; Focus chosen]
             /\ activeElement
                  (handleEvents sampleDom (keyDown "ArrowRight")
                     [Some 100%nat; Some 101%nat] 0 setContainerIndex
                     (Some (sampleOptions (AutoSelectBool true)))
                     (sampleWorld (Some 1%nat) 0)).2
                = Some chosen).
Proof.
  split; [reflexivity|].
  apply (switch_never_activates sampleDom (keyDown "ArrowRight")
           [Some 100%nat; Some 101%nat] 0
           (Some (sampleOptions (AutoSelectBool true)))
           (sampleWorld (Some 1%nat) 0) eq_refl).
Defined.

(** With [autoSelect: true] the switch on the sample document focuses the
    marked element 4 and clicks nothing, while a move inside container 100
    clicks the element it focuses. *)
Example switch_with_autoSelect_sample :
  effects (handleEvents sampleDom (keyDown "ArrowRight")
             [Some 100%nat; Some 101%nat] 0 setContainerIndex
             (Some (sampleOptions (AutoSelectBool true)))
             (sampleWorld (Some 1%nat) 0)).2
  = [PreventDefault; SetContainerIndex 1; Focus 4%nat]
  /\ effects (handleEvents sampleDom (keyDown "ArrowDown")
                [Some 100%nat; Some 101%nat] 0 setContainerIndex
                (Some (sampleOptions (AutoSelectBool true)))
                (sampleWorld (Some 1%nat) 0)).2
     = [Focus 2%nat; Click 2%nat; PreventDefault].
Proof. split; reflexivity. Qed.

(** ** Dispatch *)

(** C10 as stated fails: with the focus already on element 4 of
    container 101 while the container index is 0, ArrowRight suppresses
    the default handling although the focus does not move. *)
Lemma switch_onto_focused_element_suppresses_default :
  defaultPrevented (sampleWorld (Some 4%nat) 0) = false
  /\ handleEvents sampleDom (keyDown "ArrowRight") [Some 100%nat; Some 101%nat]
                  0 setContainerIndex None (sampleWorld (Some 4%nat) 0)
     = (Normal tt,
        {| activeElement := Some 4%nat;
           containerIndexState := 1;
           defaultPrevented := true;
           effects := [PreventDefault; SetContainerIndex 1; Focus 4%nat] |})
  /\ activeElement
       (handleEvents sampleDom (keyDown "ArrowRight")
          [Some 100%nat; Some 101%nat] 0 setContainerIndex None
          (sampleWorld (Some 4%nat) 0)).2
     = activeElement (sampleWorld (Some 4%nat) 0).
Proof. repeat split; reflexivity. Qed.

(** C10, amended: [handleEvents] calls [preventDefault] only in a call in
    which it also calls [focus] on an element, whether or not that moves
    the focus; a [focus] call on the container-switch route, or on the
    route inside a container when the policy asks for no click, always
    comes with [preventDefault]; and on each degenerate path (no
    containers, a key outside the five, no candidate container, a
    candidate without focusable elements under both selectors, no
    neighbour) the world, and so the container index, the focus and the
    event, is left as it was. *)
Theorem preventDefault_only_with_focus_call dom event containers containerIndex
    options w :
  (exists added,
      effects (handleEvents dom event containers containerIndex
                            setContainerIndex options w).2
      = effects w ++ added
      /\ (In PreventDefault added -> exists e, In (Focus e) added)
      /\ (forall e,
            In (Focus e) added ->
            switchRoute containers options event = true
            \/ activates (options ≫= autoSelect) containerIndex = false ->
            In PreventDefault added)
      /\ (In PreventDefault added
          \/ defaultPrevented
               (handleEvents dom event containers containerIndex
                             setContainerIndex options w).2
             = defaultPrevented w))
  /\ (containers = [] ->
      handleEvents dom event containers containerIndex setContainerIndex
                   options w
      = (Normal tt, w))
  /\ (recognizedKey (key event) = false ->
      handleEvents dom event containers containerIndex setContainerIndex
                   options w
      = (Normal tt, w))
  /\ (switchRoute containers options event = true ->
      candidateContainer event containers containerIndex = None ->
      (handleEvents dom event containers containerIndex setContainerIndex
                    options w).2
      = w)
  /\ (switchRoute containers options event = true ->
      forall candidate,
        candidateContainer event containers containerIndex = Some candidate ->
        focusableOf dom candidate (resolvedSelectors options) = Some [] ->
        (handleEvents dom event containers containerIndex setContainerIndex
                      options w).2
        = w)
  /\ (switchRoute containers options event = false ->
      forall container elements,
        mjoin (index containers containerIndex) = Some container ->
        querySelectorAll dom container (resolvedSelectors options)
        = Some elements ->
        neighbour event (activeElement w) elements = None ->
        (handleEvents dom event containers containerIndex setContainerIndex
                      options w).2
        = w).
Proof.
  split; [|split; [|split; [|split; [|split]]]].
  - destruct
      (handleEvents_outcome dom event containers containerIndex options w)
      as [| c elements e _ _ _ _ | candidate found chosen _ _ _ _ _].
    + exists []. rewrite app_nil_r. split; [reflexivity|].
      split; [intros [] | split; [intros e [] | right; reflexivity]].
    + eexists. split; [reflexivity|].
      assert (In PreventDefault
                (Focus e
                 :: (if activates (options ≫= autoSelect) containerIndex
                     then [Click e] else []) ++ [PreventDefault])) as Hin
        by (right; apply in_or_app; right; left; reflexivity).
      split; [intros _; exists e; left; reflexivity|].
      split; [intros x _ _; exact Hin | left; exact Hin].
    + eexists. split; [reflexivity|].
      split; [intros _; exists chosen; right; right; left; reflexivity|].
      split; [intros x _ _; left; reflexivity | left; left; reflexivity].
  - intros ->. reflexivity.
  - intros Hkey. rewrite handleEvents_closed, Hkey.
    destruct (length containers =? 0)%nat; reflexivity.
  - intros Hroute Hcand.
    destruct
      (handleEvents_outcome dom event containers containerIndex options w);
      [reflexivity | congruence | congruence].
  - intros Hroute candidate Hcand Hnone.
    destruct
      (handleEvents_outcome dom event containers containerIndex options w)
      as [| | candidate' found chosen _ Hcand' Hfound Hne _];
      [reflexivity | congruence |].
    rewrite Hcand in Hcand'. injection Hcand' as <-.
    rewrite Hnone in Hfound. injection Hfound as <-. contradiction.
  - intros Hroute container elements Hc Hq Hn.
    destruct
      (handleEvents_outcome dom event containers containerIndex options w)
      as [| c' elements' e _ Hc' Hq' Hn' |]; [reflexivity | | congruence].
    rewrite Hc in Hc'. injection Hc' as <-.
    rewrite Hq in Hq'. injection Hq' as <-. congruence.
Qed.

(** C8: with exactly one container, ArrowLeft and ArrowRight pass the key
    filter, fail the more-than-one-container guard, and change nothing:
    no focus, no index update, no [preventDefault]; the call returns
    normally whenever the container is there and the query succeeds. *)
Theorem single_container_left_right dom container event containerIndex options w :
  key event = "ArrowLeft" \/ key event = "ArrowRight" ->
  recognizedKey (key event) = true
  /\ switchRoute [container] options event = false
  /\ (handleEvents dom event [container] containerIndex setContainerIndex
                   options w).2
     = w
  /\ (forall c elements,
        mjoin (index [container] containerIndex) = Some c ->
        querySelectorAll dom c (resolvedSelectors options) = Some elements ->
        handleEvents dom event [container] containerIndex setContainerIndex
                     options w
        = handleUpDown event (activeElement w) elements containerIndex
                       (options ≫= autoSelect) w
        /\ handleUpDown event (activeElement w) elements containerIndex
                        (options ≫= autoSelect) w
           = (Normal tt, w)).
Proof.
  intros Hkey.
  assert (recognizedKey (key event) = true) as Hrec
    by (destruct Hkey as [-> | ->]; reflexivity).
  assert (switchRoute [container] options event = false) as Hroute
    by reflexivity.
  assert (forall elements policy,
             handleUpDown event (activeElement w) elements containerIndex
                          policy w
             = (Normal tt, w)) as Hnoop.
  { intros elements policy.
    rewrite handleUpDown_neighbour, neighbour_other_key.
    - apply focusElement_absent.
    - destruct Hkey as [-> | ->]; discriminate.
    - destruct Hkey as [-> | ->]; discriminate. }
  split; [exact Hrec | split; [exact Hroute | split]].
  - rewrite handleEvents_closed, Hrec, Hroute. simpl.
    destruct (mjoin (index [container] containerIndex)) as [c|]; [|reflexivity].
    destruct (querySelectorAll dom c _) as [elements|]; [|reflexivity].
    rewrite Hnoop. reflexivity.
  - intros c elements Hc Hq. split; [|apply Hnoop].
    rewrite handleEvents_closed, Hrec, Hroute, Hc, Hq. reflexivity.
Qed.

Lemma single_container_left_right_witness :
  (key (keyDown "ArrowRight") = "ArrowLeft"
   \/ key (keyDown "ArrowRight") = "ArrowRight")
  /\ recognizedKey (key (keyDown "ArrowRight")) = true
  /\ switchRoute [Some 100%nat] None (keyDown "ArrowRight") = false
  /\ (handleEvents sampleDom (keyDown "ArrowRight") [Some 100%nat] 0
                   setContainerIndex None (sampleWorld (Some 1%nat) 0)).2
     = sampleWorld (Some 1%nat) 0
  /\ (forall c elements,
        mjoin (index [Some 100%nat] 0) = Some c ->
        querySelectorAll sampleDom c (resolvedSelectors None) = Some elements ->
        handleEvents sampleDom (keyDown "ArrowRight") [Some 100%nat] 0
                     setContainerIndex None (sampleWorld (Some 1%nat) 0)
        = handleUpDown (keyDown "ArrowRight")
                       (activeElement (sampleWorld (Some 1%nat) 0)) elements 0
                       (None ≫= autoSelect) (sampleWorld (Some 1%nat) 0)
        /\ handleUpDown (keyDown "ArrowRight")
                        (activeElement (sampleWorld (Some 1%nat) 0)) elements 0
                        (None ≫= autoSelect) (sampleWorld (Some 1%nat) 0)
           = (Normal tt, sampleWorld (Some 1%nat) 0)).
Proof.
  split; [right; reflexivity|].
  apply (single_container_left_right sampleDom (Some 100%nat)
           (keyDown "ArrowRight") 0 None (sampleWorld (Some 1%nat) 0)).
  right. reflexivity.
Defined.

(** C2: when the hook's handler runs with a container index inside a
    non-empty container sequence, the index is inside it afterwards; it
    changes only on the switch route, only when the candidate container
    exists and has a focusable element, and then to the next index on a
    next input and to the previous index on a previous input; a previous
    input at index 0 and a next input at the last index leave it alone. *)
Theorem containerIndex_invariant dom containers options event w :
  containers <> [] ->
  0 <= containerIndexState w < Z.of_nat (length containers) ->
  (0 <= containerIndexState (eventHandler dom containers options event w).2
   < Z.of_nat (length containers))
  /\ (containerIndexState (eventHandler dom containers options event w).2
      <> containerIndexState w ->
      switchRoute containers options event = true
      /\ exists candidate found,
           candidateContainer event containers (containerIndexState w)
           = Some candidate
           /\ focusableOf dom candidate (resolvedSelectors options) = Some found
           /\ found <> [])
  /\ (containerIndexState (eventHandler dom containers options event w).2
      = containerIndexState w
      \/ (nextInput event = true
          /\ containerIndexState (eventHandler dom containers options event w).2
             = containerIndexState w + 1)
      \/ (previousInput event = true
          /\ containerIndexState (eventHandler dom containers options event w).2
             = containerIndexState w - 1))
  /\ (previousInput event = true -> containerIndexState w = 0 ->
      containerIndexState (eventHandler dom containers options event w).2 = 0
      /\ (switchRoute containers options event = true ->
          (eventHandler dom containers options event w).2 = w))
  /\ (nextInput event = true ->
      containerIndexState w = Z.of_nat (length containers) - 1 ->
      containerIndexState (eventHandler dom containers options event w).2
      = Z.of_nat (length containers) - 1
      /\ (switchRoute containers options event = true ->
          (eventHandler dom containers options event w).2 = w)).
Proof.
  intros Hne Hrange. unfold eventHandler.
  destruct (handleEvents_outcome dom event containers (containerIndexState w)
              options w)
    as [| c elements e Hroute _ _ _
        | candidate found chosen Hroute Hcand Hfound Hnonempty _].
  - repeat split; intros; try lia; try tauto; try congruence.
  - simpl. repeat split; intros; try lia; try tauto; try congruence.
  - apply candidateContainer_present in Hcand as Hdir.
    unfold nextInput in *.
    destruct Hdir as [(Hprev & Hpos & _) | (Hprev & Hnext & _ & Hlast)];
      rewrite Hprev in *; simpl.
    + split; [lia|]. split; [intros _; split; [exact Hroute|]; eauto|].
      split; [right; right; split; [reflexivity | lia]|].
      split; [intros _ Hzero; lia | intros Hn; discriminate].
    + split; [lia|]. split; [intros _; split; [exact Hroute|]; eauto|].
      split; [right; left; split; [exact Hnext | lia]|].
      split; [intros Hp; discriminate | intros _ Hend; lia].
Qed.

Lemma containerIndex_invariant_witness :
  [Some 100%nat; Some 101%nat] <> []
  /\ 0 <= containerIndexState (sampleWorld (Some 1%nat) 0)
     < Z.of_nat (length [Some 100%nat; Some 101%nat])
  /\ containerIndexState
       (eventHandler sampleDom [Some 100%nat; Some 101%nat] None
                     (keyDown "ArrowRight") (sampleWorld (Some 1%nat) 0)).2
     = 1
  /\ 0 <= containerIndexState
            (eventHandler sampleDom [Some 100%nat; Some 101%nat] None
                          (keyDown "ArrowRight") (sampleWorld (Some 1%nat) 0)).2
     < Z.of_nat (length [Some 100%nat; Some 101%nat]).
Proof.
  assert ([Some 100%nat; Some 101%nat] <> []) as Hne by discriminate.
  assert (0 <= containerIndexState (sampleWorld (Some 1%nat) 0)
          < Z.of_nat (length [Some 100%nat; Some 101%nat])) as Hrange
    by (simpl; lia).
  split; [exact Hne | split; [exact Hrange | split; [reflexivity|]]].
  exact (proj1 (containerIndex_invariant sampleDom
                  [Some 100%nat; Some 101%nat] None (keyDown "ArrowRight")
                  (sampleWorld (Some 1%nat) 0) Hne Hrange)).
Defined.

(** The sample document through the hook's handler: a next input at the
    last index and a previous input at index 0 change nothing, and a next
    input at index 0 moves to index 1. *)
Example eventHandler_boundaries_sample :
  eventHandler sampleDom [Some 100%nat; Some 101%nat] None
               (keyDown "ArrowRight") (sampleWorld (Some 3%nat) 1)
  = (Normal tt, sampleWorld (Some 3%nat) 1)
  /\ eventHandler sampleDom [Some 100%nat; Some 101%nat] None
                  (keyDown "ArrowLeft") (sampleWorld (Some 1%nat) 0)
     = (Normal tt, sampleWorld (Some 1%nat) 0)
  /\ containerIndexState
       (eventHandler sampleDom [Some 100%nat; Some 101%nat] None
                     (keyDown "ArrowRight") (sampleWorld (Some 1%nat) 0)).2
     = 1.
Proof. repeat split; reflexivity. Qed.

(** ** Further properties of the handlers *)

Lemma findIndexFrom_first_hit {A} (p : A -> bool) (pre post : list A) (x : A)
    (i : Z) :
  (forall y, In y pre -> p y = false) -> p x = true ->
  findIndexFrom p (pre ++ x :: post) i = i + Z.of_nat (length pre).
Proof.
  revert i; induction pre as [|y pre IH]; intros i Hpre Hx; simpl.
  - rewrite Hx. lia.
  - rewrite (Hpre y) by (left; reflexivity).
    rewrite IH; [lia | | exact Hx].
    intros z Hz. apply Hpre. right; exact Hz.
Qed.

Lemma findIndex_position (pre post : list Element) (cur : Element) :
  NoDup (pre ++ cur :: post) ->
  findIndex (fun x => bool_decide (Some x = Some cur)) (pre ++ cur :: post)
  = Z.of_nat (length pre).
Proof.
  intros Hnd. unfold findIndex. rewrite findIndexFrom_first_hit.
  - lia.
  - intros y Hy. apply bool_decide_eq_false. intros [= ->].
    apply NoDup_app in Hnd as (_ & Hdisj & _).
    apply (Hdisj cur); [apply list_elem_of_In; exact Hy | left].
  - apply bool_decide_eq_true_2. reflexivity.
Qed.

Lemma index_of_nat {A} (xs : list A) (n : nat) :
  index xs (Z.of_nat n) = xs !! n.
Proof.
  unfold index. destruct (Z.ltb_spec (Z.of_nat n) 0); [lia|].
  rewrite Nat2Z.id. reflexivity.
Qed.

Lemma index_member {A} (xs : list A) (i : Z) (x : A) :
  index xs i = Some x -> In x xs.
Proof.
  unfold index. destruct (i <? 0); [discriminate|].
  intros Hx. apply list_elem_of_In. eapply list_elem_of_lookup_2. exact Hx.
Qed.

(** X1: in a sequence without repetitions, ArrowDown on a focused element
    that has a successor focuses that successor, and ArrowUp on one that
    has a predecessor focuses that predecessor; the default handling is
    suppressed, the element is clicked as the policy says, and the
    container index stays. *)
Theorem handleUpDown_moves_to_neighbour event pre cur post containerIndex policy w :
  NoDup (pre ++ cur :: post) ->
  (key event = "ArrowDown" -> forall next rest, post = next :: rest ->
   handleUpDown event (Some cur) (pre ++ cur :: post) containerIndex policy w
   = (Normal tt, focused next (activates policy containerIndex) w))
  /\ (key event = "ArrowUp" -> forall previous, last pre = Some previous ->
      handleUpDown event (Some cur) (pre ++ cur :: post) containerIndex policy w
      = (Normal tt, focused previous (activates policy containerIndex) w)).
Proof.
  intros Hnd. split.
  - intros Hk next rest ->.
    rewrite handleUpDown_neighbour, neighbour_down, findIndex_position
      by assumption.
    replace (Z.of_nat (length pre) + 1) with (Z.of_nat (length pre + 1)) by lia.
    rewrite index_of_nat.
    rewrite lookup_app_r by lia.
    replace (length pre + 1 - length pre)%nat with 1%nat by lia.
    apply focusElement_present.
  - intros Hk previous Hlast. apply last_Some in Hlast as [pre' ->].
    rewrite handleUpDown_neighbour, neighbour_up, findIndex_position
      by assumption.
    rewrite length_app. simpl length.
    replace (Z.of_nat (length pre' + 1) - 1) with (Z.of_nat (length pre')) by lia.
    rewrite index_of_nat.
    rewrite <- app_assoc. rewrite lookup_app_r by lia.
    replace (length pre' - length pre')%nat with 0%nat by lia.
    apply focusElement_present.
Qed.

Lemma handleUpDown_moves_to_neighbour_witness :
  NoDup ([1] ++ 2 :: [3])%nat
  /\ handleUpDown (keyDown "ArrowDown") (Some 2%nat) ([1] ++ 2 :: [3])%nat 0
                  None (sampleWorld (Some 2%nat) 0)
     = (Normal tt,
        focused 3%nat (activates None 0) (sampleWorld (Some 2%nat) 0)).
Proof.
  assert (NoDup ([1] ++ 2 :: [3])%nat) as Hnd
    by (apply (bool_decide_unpack (NoDup [1; 2; 3]%nat)); vm_compute; exact I).
  split; [exact Hnd|].
  exact (proj1 (handleUpDown_moves_to_neighbour (keyDown "ArrowDown")
                  [1%nat] 2%nat [3%nat] 0 None (sampleWorld (Some 2%nat) 0) Hnd)
               eq_refl 3%nat [] eq_refl).
Defined.

(** X2: a Tab key that is not configured to switch containers, or that
    arrives with at most one container, is left to the browser: nothing is
    focused, the index stays and the default handling is not
    suppressed. *)
Theorem tab_left_to_the_browser dom event containers containerIndex options w :
  key event = "Tab" ->
  default false (options ≫= tabKeyContainerLevel) = false
  \/ (length containers <= 1)%nat ->
  (handleEvents dom event containers containerIndex setContainerIndex
                options w).2
  = w.
Proof.
  intros Hk Hoff.
  assert (switchRoute containers options event = false) as Hroute.
  { unfold switchRoute. rewrite Hk. simpl.
    destruct Hoff as [-> | Hlen].
    - simpl. apply andb_false_r.
    - destruct (Nat.ltb_spec 1 (length containers)); [lia | reflexivity]. }
  rewrite handleEvents_closed, Hroute.
  destruct (length containers =? 0)%nat; [reflexivity|].
  destruct (negb _); [reflexivity|].
  destruct (mjoin (index containers containerIndex)) as [c|]; [|reflexivity].
  destruct (querySelectorAll dom c _) as [elements|]; [|reflexivity].
  rewrite handleUpDown_neighbour, neighbour_other_key.
  - reflexivity.
  - rewrite Hk. discriminate.
  - rewrite Hk. discriminate.
Qed.

Lemma tab_left_to_the_browser_witness :
  key (keyDown "Tab") = "Tab"
  /\ (default false (None ≫= tabKeyContainerLevel) = false
      \/ (length [Some 100%nat; Some 101%nat] <= 1)%nat)
  /\ (handleEvents sampleDom (keyDown "Tab") [Some 100%nat; Some 101%nat] 0
                   setContainerIndex None (sampleWorld (Some 1%nat) 0)).2
     = sampleWorld (Some 1%nat) 0.
Proof.
  split; [reflexivity|]. split; [left; reflexivity|].
  apply (tab_left_to_the_browser sampleDom (keyDown "Tab")
           [Some 100%nat; Some 101%nat] 0 None (sampleWorld (Some 1%nat) 0)
           eq_refl).
  left. reflexivity.
Defined.

Lemma moveToContainer_any_event dom candidate forwardDirection event event'
    selectors name w :
  moveToContainer dom candidate setContainerIndex forwardDirection event
                  (Some selectors) name w
  = moveToContainer dom candidate setContainerIndex forwardDirection event'
                    (Some selectors) name w.
Proof.
  destruct candidate as [c|].
  - rewrite !moveToContainer_present. reflexivity.
  - rewrite !moveToContainer_absent. reflexivity.
Qed.

(** X3: with more than one container and [tabKeyContainerLevel] on, Tab
    does what ArrowRight does and Shift+Tab does what ArrowLeft does,
    whatever the Shift state of the arrow key event. *)
Theorem tab_switches_like_arrows dom containers containerIndex options shift w :
  (1 < length containers)%nat ->
  options ≫= tabKeyContainerLevel = Some true ->
  handleEvents dom {| key := "Tab"; shiftKey := false |} containers
               containerIndex setContainerIndex options w
  = handleEvents dom {| key := "ArrowRight"; shiftKey := shift |} containers
                 containerIndex setContainerIndex options w
  /\ handleEvents dom {| key := "Tab"; shiftKey := true |} containers
                  containerIndex setContainerIndex options w
     = handleEvents dom {| key := "ArrowLeft"; shiftKey := shift |} containers
                    containerIndex setContainerIndex options w.
Proof.
  intros Hlen Hopt.
  assert (forall k s,
             k = "Tab" \/ k = "ArrowLeft" \/ k = "ArrowRight" ->
             switchRoute containers options {| key := k; shiftKey := s |}
             = true) as Hroute.
  { intros k s Hk. unfold switchRoute. rewrite Hopt.
    destruct (Nat.ltb_spec 1 (length containers)); [|lia].
    destruct Hk as [-> | [-> | ->]]; reflexivity. }
  rewrite !handleEvents_closed, !Hroute by tauto.
  rewrite !handleSwitchContainer_candidate.
  split.
  - replace (candidateContainer {| key := "ArrowRight"; shiftKey := shift |}
               containers containerIndex)
      with (candidateContainer {| key := "Tab"; shiftKey := false |}
              containers containerIndex)
      by (destruct shift; reflexivity).
    replace (previousInput {| key := "ArrowRight"; shiftKey := shift |})
      with (previousInput {| key := "Tab"; shiftKey := false |})
      by (destruct shift; reflexivity).
    simpl key. change (recognizedKey "Tab") with true.
    change (recognizedKey "ArrowRight") with true.
    rewrite (moveToContainer_any_event dom _ _
               {| key := "Tab"; shiftKey := false |}
               {| key := "ArrowRight"; shiftKey := shift |}).
    reflexivity.
  - replace (candidateContainer {| key := "ArrowLeft"; shiftKey := shift |}
               containers containerIndex)
      with (candidateContainer {| key := "Tab"; shiftKey := true |}
              containers containerIndex)
      by (destruct shift; reflexivity).
    replace (previousInput {| key := "ArrowLeft"; shiftKey := shift |})
      with (previousInput {| key := "Tab"; shiftKey := true |})
      by (destruct shift; reflexivity).
    simpl key. change (recognizedKey "Tab") with true.
    change (recognizedKey "ArrowLeft") with true.
    rewrite (moveToContainer_any_event dom _ _
               {| key := "Tab"; shiftKey := true |}
               {| key := "ArrowLeft"; shiftKey := shift |}).
    reflexivity.
Qed.

Lemma tab_switches_like_arrows_witness :
  (1 < length [Some 100%nat; Some 101%nat])%nat
  /\ Some {| selectors := None; autoSelect := None;
             tabKeyContainerLevel := Some true; selectedClassName := None |}
     ≫= tabKeyContainerLevel
     = Some true
  /\ handleEvents sampleDom {| key := "Tab"; shiftKey := false |}
                  [Some 100%nat; Some 101%nat] 0 setContainerIndex
                  (Some {| selectors := None; autoSelect := None;
                           tabKeyContainerLevel := Some true;
                           selectedClassName := None |})
                  (sampleWorld (Some 1%nat) 0)
     = (Normal tt, switched true 4%nat (sampleWorld (Some 1%nat) 0)).
Proof.
  split; [simpl; lia|]. split; [reflexivity|].
  rewrite (proj1 (tab_switches_like_arrows sampleDom
                    [Some 100%nat; Some 101%nat] 0
                    (Some {| selectors := None; autoSelect := None;
                             tabKeyContainerLevel := Some true;
                             selectedClassName := None |})
                    false (sampleWorld (Some 1%nat) 0)
                    ltac:(simpl; lia) eq_refl)).
  reflexivity.
Defined.

(** X5: with containers, a recognised key and no container at the
    container index (a missing entry, or an index outside the sequence),
    [handleEvents] throws a [TypeError] before it does anything: a
    container index out of range is an error, not a no-op. *)
Theorem handleEvents_missing_container_throws dom event containers
    containerIndex options w :
  containers <> [] ->
  recognizedKey (key event) = true ->
  mjoin (index containers containerIndex) = None
  \/ containerIndex < 0
  \/ Z.of_nat (length containers) <= containerIndex ->
  handleEvents dom event containers containerIndex setContainerIndex options w
  = (Thrown TypeError, w).
Proof.
  intros Hne Hrec Hmissing.
  assert (mjoin (index containers containerIndex) = None) as Hnone.
  { destruct Hmissing as [H | [Hneg | Hbig]]; [exact H | |].
    - rewrite index_negative by assumption. reflexivity.
    - rewrite index_beyond by assumption. reflexivity. }
  rewrite handleEvents_closed, Hrec, Hnone.
  destruct containers; [contradiction | reflexivity].
Qed.

Lemma handleEvents_missing_container_throws_witness :
  [Some 100%nat; Some 101%nat] <> []
  /\ recognizedKey (key (keyDown "ArrowDown")) = true
  /\ handleEvents sampleDom (keyDown "ArrowDown") [Some 100%nat; Some 101%nat]
                  2 setContainerIndex None (sampleWorld (Some 1%nat) 2)
     = (Thrown TypeError, sampleWorld (Some 1%nat) 2).
Proof.
  split; [discriminate|]. split; [reflexivity|].
  apply (handleEvents_missing_container_throws sampleDom (keyDown "ArrowDown")
           [Some 100%nat; Some 101%nat] 2 None (sampleWorld (Some 1%nat) 2)).
  - discriminate.
  - reflexivity.
  - right. right. simpl. lia.
Defined.

Lemma candidateContainer_target event containers containerIndex c :
  candidateContainer event containers containerIndex = Some c ->
  mjoin (index containers
           (if negb (previousInput event) then containerIndex + 1
            else containerIndex - 1))
  = Some c.
Proof.
  unfold candidateContainer, nextInput.
  destruct (previousInput event); cbn [negb andb].
  - destruct (0 <? containerIndex); [tauto | discriminate].
  - destruct (arrayIncludes ["Tab"; "ArrowRight"] (key event)); [|discriminate].
    destruct (containerIndex <? Z.of_nat (length containers) - 1);
      [tauto | discriminate].
Qed.

Lemma focusableOf_query dom c selectors found :
  focusableOf dom c selectors = Some found ->
  (querySelectorAll dom c selectors = Some found
   \/ querySelectorAll dom c universalSelectors = Some found)
  /\ is_Some (querySelectorAll dom c selectors).
Proof.
  unfold focusableOf.
  destruct (querySelectorAll dom c selectors) as [[|x xs]|] eqn:E.
  - intros H. split; [right; exact H | eauto].
  - intros H. split; [left; exact H | eauto].
  - discriminate.
Qed.

Lemma checkForPreviouslyFocusedElement_member dom elements name e :
  checkForPreviouslyFocusedElement dom elements name = Some e -> In e elements.
Proof.
  rewrite checkForPreviouslyFocusedElement_find.
  destruct (find (hasMarker dom name) elements) as [x|] eqn:E.
  - intros [= <-]. apply find_some in E. tauto.
  - destruct elements; [discriminate|]. intros [= <-]. left. reflexivity.
Qed.

Lemma neighbour_member event active elements e :
  neighbour event active elements = Some e -> In e elements.
Proof.
  unfold neighbour.
  destruct (String.eqb (key event) "ArrowUp");
    [apply index_member|].
  destruct (String.eqb (key event) "ArrowDown");
    [apply index_member | discriminate].
Qed.

(** X6: when [handleEvents] is given the current container index, every
    element it calls [focus] on is one of the elements that a query of the
    container at the resulting container index returns: the index and the
    container of the last [focus] call never come apart. *)
Theorem focus_call_in_indexed_container dom event containers containerIndex
    options w :
  containerIndexState w = containerIndex ->
  exists added,
    effects (handleEvents dom event containers containerIndex
                          setContainerIndex options w).2
    = effects w ++ added
    /\ forall e,
        In (Focus e) added ->
        exists c found,
          mjoin (index containers
                   (containerIndexState
                      (handleEvents dom event containers containerIndex
                                    setContainerIndex options w).2))
          = Some c
          /\ (querySelectorAll dom c (resolvedSelectors options) = Some found
              \/ querySelectorAll dom c universalSelectors = Some found)
          /\ In e found.
Proof.
  intros Hsync.
  destruct (handleEvents_outcome dom event containers containerIndex options w)
    as [| c elements x _ Hc Hq Hn
        | candidate found chosen _ Hcand Hfound _ Hsel].
  - exists []. rewrite app_nil_r. split; [reflexivity | intros e []].
  - eexists. split; [reflexivity|]. intros e He.
    assert (e = x) as ->.
    { destruct (activates _ _); simpl in He;
        decompose [or] He; try discriminate; try contradiction; congruence. }
    exists c, elements. simpl. rewrite Hsync.
    split; [exact Hc|]. split; [left; exact Hq|].
    eapply neighbour_member. exact Hn.
  - eexists. split; [reflexivity|]. intros e He.
    assert (e = chosen) as ->.
    { simpl in He. decompose [or] He; try discriminate; try contradiction;
        congruence. }
    exists candidate, found.
    apply candidateContainer_target in Hcand.
    apply focusableOf_query in Hfound as [Hfound _].
    split; [|split; [exact Hfound|]].
    + unfold switched. simpl. rewrite Hsync.
      destruct (negb (previousInput event)); exact Hcand.
    + eapply checkForPreviouslyFocusedElement_member. exact Hsel.
Qed.

Lemma focus_call_in_indexed_container_witness :
  containerIndexState (sampleWorld (Some 1%nat) 0) = 0
  /\ exists added,
       effects (handleEvents sampleDom (keyDown "ArrowRight")
                  [Some 100%nat; Some 101%nat] 0 setContainerIndex None
                  (sampleWorld (Some 1%nat) 0)).2
       = effects (sampleWorld (Some 1%nat) 0) ++ added
       /\ forall e,
           In (Focus e) added ->
           exists c found,
             mjoin (index [Some 100%nat; Some 101%nat]
                      (containerIndexState
                         (handleEvents sampleDom (keyDown "ArrowRight")
                            [Some 100%nat; Some 101%nat] 0 setContainerIndex
                            None (sampleWorld (Some 1%nat) 0)).2))
             = Some c
             /\ (querySelectorAll sampleDom c (resolvedSelectors None)
                 = Some found
                 \/ querySelectorAll sampleDom c universalSelectors
                    = Some found)
             /\ In e found.
Proof.
  split; [reflexivity|].
  apply (focus_call_in_indexed_container sampleDom (keyDown "ArrowRight")
           [Some 100%nat; Some 101%nat] 0 None (sampleWorld (Some 1%nat) 0)).
  reflexivity.
Defined.

(** ** Selector resolution *)

Lemma append_empty_r (s : string) : (s ++ EmptyString)%string = s.
Proof.
  induction s as [|c s IH]; [reflexivity|].
  rewrite append_cons, IH. reflexivity.
Qed.

Lemma append_assoc (a b c : string) :
  ((a ++ b) ++ c)%string = (a ++ b ++ c)%string.
Proof.
  induction a as [|x a IH]; [reflexivity|].
  rewrite !append_cons, IH. reflexivity.
Qed.

Lemma concat_cons (sep x y : string) (l : list string) :
  String.concat sep (x :: y :: l)
  = (x ++ sep ++ String.concat sep (y :: l))%string.
Proof. reflexivity. Qed.

Lemma concat_app (sep : string) (l1 l2 : list string) :
  l1 <> [] -> l2 <> [] ->
  String.concat sep (l1 ++ l2)
  = (String.concat sep l1 ++ sep ++ String.concat sep l2)%string.
Proof.
  intros Hl1 Hl2. induction l1 as [|x l1 IH]; [contradiction|].
  destruct l1 as [|y l1].
  - destruct l2 as [|z l2]; [contradiction | reflexivity].
  - change ((x :: y :: l1) ++ l2) with (x :: y :: (l1 ++ l2)).
    rewrite !concat_cons.
    change (y :: l1 ++ l2) with ((y :: l1) ++ l2).
    rewrite IH by discriminate.
    rewrite !append_assoc. reflexivity.
Qed.

Lemma concat_holds_member (sep s : string) (l : list string) :
  In s l -> exists p q, String.concat sep l = (p ++ s ++ q)%string.
Proof.
  induction l as [|x l IH]; [intros []|].
  intros [-> | Hin].
  - destruct l as [|y l].
    + exists EmptyString, EmptyString. simpl String.concat.
      rewrite append_empty_r. reflexivity.
    + exists EmptyString, (sep ++ String.concat sep (y :: l))%string.
      reflexivity.
  - destruct l as [|y l]; [destruct Hin|].
    destruct (IH Hin) as [p [q Hpq]].
    exists (x ++ sep ++ p)%string, q.
    rewrite concat_cons, Hpq, !append_assoc. reflexivity.
Qed.

(** X8: [parseSelectors] passes a single selector through, also when it
    comes as a one-element array; the string it makes of an array holds
    every selector of the array as a substring, and the string of two
    non-empty arrays put together is the two strings joined by a comma. *)
Theorem parseSelectors_join :
  (forall s, parseSelectors (ManySelectors [s]) = parseSelectors (OneSelector s))
  /\ (forall l s,
        In s l -> includes (parseSelectors (ManySelectors l)) s = true)
  /\ (forall l1 l2,
        l1 <> [] -> l2 <> [] ->
        parseSelectors (ManySelectors (l1 ++ l2))
        = (parseSelectors (ManySelectors l1) ++ ","
           ++ parseSelectors (ManySelectors l2))%string).
Proof.
  split; [reflexivity | split].
  - intros l s Hin. apply includes_substring.
    apply concat_holds_member. exact Hin.
  - intros l1 l2 Hl1 Hl2. apply concat_app; assumption.
Qed.

(** X9: without configured selectors (no options, no [selectors] field,
    or the empty string) the handlers query with the universal selector,
    so the fallback query of a switch repeats the first one; an empty
    selector array is not replaced by the default and resolves to the
    empty selector string. *)
Theorem default_selectors options :
  (options ≫= selectors = None
   \/ options ≫= selectors = Some (OneSelector EmptyString) ->
   resolvedSelectors options = universalSelectors
   /\ forall dom container,
       focusableOf dom container (resolvedSelectors options)
       = querySelectorAll dom container universalSelectors)
  /\ (options ≫= selectors = Some (ManySelectors []) ->
      resolvedSelectors options = EmptyString)
  /\ (forall s, s <> EmptyString ->
      options ≫= selectors = Some (OneSelector s) ->
      resolvedSelectors options = s).
Proof.
  unfold resolvedSelectors. split; [|split].
  - intros Hdefault.
    assert (parseSelectors (selectorsOrAll (options ≫= selectors))
            = universalSelectors) as ->
      by (destruct Hdefault as [-> | ->]; reflexivity).
    split; [reflexivity|].
    intros dom container. unfold focusableOf.
    destruct (querySelectorAll dom container universalSelectors)
      as [[|x xs]|]; reflexivity.
  - intros ->. reflexivity.
  - intros s Hs ->. destruct s; [contradiction | reflexivity].
Qed.

(** ** Selection Memory, further *)

(** X12: Selection Memory returns nothing only for an empty sequence, and
    what it returns is an element of the sequence: one that passes the
    marker test, or else no element of the sequence passes it. *)
Theorem selection_is_member dom elements name :
  (checkForPreviouslyFocusedElement dom elements name = None <-> elements = [])
  /\ (forall e,
        checkForPreviouslyFocusedElement dom elements name = Some e ->
        In e elements
        /\ (hasMarker dom name e = true
            \/ forall x, In x elements -> hasMarker dom name x = false)).
Proof.
  split.
  - split.
    + destruct elements as [|x xs]; [reflexivity|].
      destruct (checkForPreviouslyFocusedElement_nonempty dom x xs name)
        as [chosen [Hsel _]].
      rewrite Hsel. discriminate.
    + intros ->. reflexivity.
  - intros e Hsel. split.
    + eapply checkForPreviouslyFocusedElement_member. exact Hsel.
    + rewrite checkForPreviouslyFocusedElement_find in Hsel.
      destruct (find (hasMarker dom name) elements) as [x|] eqn:E.
      * injection Hsel as <-. left. apply find_some in E. tauto.
      * right. apply find_none_iff. exact E.
Qed.

(** X13: when every element passes the marker test, Selection Memory
    returns the first element; this is so for the empty marker name, which
    every class string contains. *)
Theorem selection_with_marker_everywhere dom elements :
  (forall name,
      (forall x, In x elements -> hasMarker dom name x = true) ->
      checkForPreviouslyFocusedElement dom elements name = head elements)
  /\ checkForPreviouslyFocusedElement dom elements (Some EmptyString)
     = head elements.
Proof.
  assert (forall name,
             (forall x, In x elements -> hasMarker dom name x = true) ->
             checkForPreviouslyFocusedElement dom elements name
             = head elements) as Hall.
  { intros name Hmarked. rewrite checkForPreviouslyFocusedElement_find.
    destruct elements as [|x xs]; [reflexivity|]. simpl.
    rewrite Hmarked by (left; reflexivity). reflexivity. }
  split; [exact Hall|].
  apply Hall. intros x _. unfold hasMarker. simpl default.
  rewrite includes_unfold, prefix_empty. reflexivity.
Qed.

(** ** Container resolution *)

(** X10: filling the container array is idempotent: running the effect
    body again on the array it produced changes nothing, an array that
    already holds containers is never touched, and an empty array is left
    empty or filled with the resolution of every configured container, in
    the configured order. *)
Theorem populateContainers_idempotent document container containers containers' :
  populateContainers document container containers = Normal containers' ->
  populateContainers document container containers' = Normal containers'
  /\ (containers <> [] -> containers' = containers)
  /\ (containers = [] ->
      containers' = []
      \/ containers'
         = map (parseContainer document)
               match container with
               | OneContainer c => [c]
               | ManyContainers cs => cs
               end).
Proof.
  unfold populateContainers.
  destruct container as [c | [|first rest]]; [| discriminate |].
  - destruct containers as [|x xs]; simpl.
    + intros [= <-]. simpl. split; [reflexivity|].
      split; [intros H; contradiction | intros _; right; reflexivity].
    + intros [= <-]. simpl. split; [reflexivity|].
      split; [reflexivity | discriminate].
  - destruct (parseContainer document first) as [e|] eqn:Hfirst.
    + destruct containers as [|x xs]; simpl.
      * rewrite ?Hfirst. intros [= <-]. simpl. rewrite ?Hfirst.
        split; [reflexivity|].
        split; [intros H; contradiction | intros _; right; reflexivity].
      * intros [= <-]. simpl. split; [reflexivity|].
        split; [reflexivity | discriminate].
    + intros [= <-]. split; [reflexivity|].
      split; [reflexivity | intros ->; left; reflexivity].
Qed.

Lemma populateContainers_idempotent_witness :
  populateContainers sampleDocument
    (ManyContainers [ContainerId "left"; ContainerId "right"]) []
  = Normal [Some 100%nat; Some 101%nat]
  /\ populateContainers sampleDocument
       (ManyContainers [ContainerId "left"; ContainerId "right"])
       [Some 100%nat; Some 101%nat]
     = Normal [Some 100%nat; Some 101%nat].
Proof.
  split; [reflexivity|].
  exact (proj1 (populateContainers_idempotent sampleDocument
                  (ManyContainers [ContainerId "left"; ContainerId "right"])
                  [] [Some 100%nat; Some 101%nat] eq_refl)).
Defined.

(** X11: a container that does not resolve behaves differently in the two
    forms of the hook's argument.  Given alone, it is pushed as a missing
    container, and then every recognised key makes [handleEvents] throw a
    [TypeError]; given first in an array, nothing is pushed, whatever the
    other entries resolve to, and then [handleEvents] does nothing on any
    key. *)
Theorem unresolved_container dom document c others options event w :
  parseContainer document c = None ->
  (exists containers,
      populateContainers document (OneContainer c) [] = Normal containers
      /\ (recognizedKey (key event) = true ->
          handleEvents dom event containers 0 setContainerIndex options w
          = (Thrown TypeError, w)))
  /\ (exists containers,
        populateContainers document (ManyContainers (c :: others)) []
        = Normal containers
        /\ forall containerIndex,
            handleEvents dom event containers containerIndex
                         setContainerIndex options w
            = (Normal tt, w)).
Proof.
  intros Hnone. split.
  - exists [None]. unfold populateContainers. simpl. rewrite Hnone.
    split; [reflexivity|].
    intros Hrec. rewrite handleEvents_closed, Hrec. reflexivity.
  - exists []. unfold populateContainers. rewrite Hnone.
    split; reflexivity.
Qed.

Lemma unresolved_container_witness :
  parseContainer sampleDocument (ContainerId "nowhere") = None
  /\ (exists containers,
        populateContainers sampleDocument
          (OneContainer (ContainerId "nowhere")) []
        = Normal containers
        /\ (recognizedKey (key (keyDown "ArrowDown")) = true ->
            handleEvents sampleDom (keyDown "ArrowDown") containers 0
                         setContainerIndex None (sampleWorld None 0)
            = (Thrown TypeError, sampleWorld None 0)))
  /\ (exists containers,
        populateContainers sampleDocument
          (ManyContainers [ContainerId "nowhere"; ContainerId "right"]) []
        = Normal containers
        /\ forall containerIndex,
            handleEvents sampleDom (keyDown "ArrowDown") containers
                         containerIndex setContainerIndex None
                         (sampleWorld None 0)
            = (Normal tt, sampleWorld None 0)).
Proof.
  split; [reflexivity|].
  apply (unresolved_container sampleDom sampleDocument
           (ContainerId "nowhere") [ContainerId "right"] None
           (keyDown "ArrowDown") (sampleWorld None 0)).
  reflexivity.
Defined.

(** ** What a call never does *)

(** X14: [handleEvents] clicks at most the element it has just focused,
    only on the route inside a container, and only when the AutoSelect
    policy holds at the container index. *)
Theorem clicks_only_the_focused dom event containers containerIndex options w :
  exists added,
    effects (handleEvents dom event containers containerIndex
                          setContainerIndex options w).2
    = effects w ++ added
    /\ forall e,
        In (Click e) added ->
        In (Focus e) added
        /\ activeElement (handleEvents dom event containers containerIndex
                                       setContainerIndex options w).2
           = Some e
        /\ activates (options ≫= autoSelect) containerIndex = true
        /\ switchRoute containers options event = false.
Proof.
  destruct (handleEvents_outcome dom event containers containerIndex options w)
    as [| c elements x Hroute _ _ _ | candidate found chosen _ _ _ _ _].
  - exists []. rewrite app_nil_r. split; [reflexivity | intros e []].
  - eexists. split; [reflexivity|]. intros e He.
    destruct (activates (options ≫= autoSelect) containerIndex); simpl in He.
    + destruct He as [He | [He | [He | []]]]; try discriminate.
      injection He as <-.
      split; [left; reflexivity|]. repeat split; assumption.
    + destruct He as [He | [He | []]]; discriminate.
  - eexists. split; [reflexivity|]. intros e He. simpl in He.
    destruct He as [He | [He | [He | []]]]; discriminate.
Qed.

(** X15: ArrowUp and ArrowDown never switch containers: the container
    index is not updated by them, with any number of containers and any
    options. *)
Theorem up_down_keep_index dom event containers containerIndex options w :
  key event = "ArrowUp" \/ key event = "ArrowDown" ->
  containerIndexState (handleEvents dom event containers containerIndex
                                    setContainerIndex options w).2
  = containerIndexState w
  /\ exists added,
       effects (handleEvents dom event containers containerIndex
                             setContainerIndex options w).2
       = effects w ++ added
       /\ forall i, ~ In (SetContainerIndex i) added.
Proof.
  intros Hk.
  assert (switchRoute containers options event = false) as Hroute.
  { unfold switchRoute. destruct Hk as [-> | ->]; simpl; apply andb_false_r. }
  destruct (handleEvents_outcome dom event containers containerIndex options w)
    as [| c elements x _ _ _ _ | candidate found chosen Hswitch _ _ _ _].
  - split; [reflexivity|]. exists []. rewrite app_nil_r.
    split; [reflexivity | intros i []].
  - split; [reflexivity|]. eexists. split; [reflexivity|]. intros i Hi.
    destruct (activates _ _); simpl in Hi;
      decompose [or] Hi; try discriminate; contradiction.
  - congruence.
Qed.

Lemma up_down_keep_index_witness :
  (key (keyDown "ArrowDown") = "ArrowUp"
   \/ key (keyDown "ArrowDown") = "ArrowDown")
  /\ containerIndexState
       (handleEvents sampleDom (keyDown "ArrowDown")
          [Some 100%nat; Some 101%nat] 0 setContainerIndex None
          (sampleWorld (Some 1%nat) 0)).2
     = containerIndexState (sampleWorld (Some 1%nat) 0).
Proof.
  split; [right; reflexivity|].
  exact (proj1 (up_down_keep_index sampleDom (keyDown "ArrowDown")
                  [Some 100%nat; Some 101%nat] 0 None
                  (sampleWorld (Some 1%nat) 0) (or_intror eq_refl))).
Defined.
